(** * Product catalog API (main.py): shallow embedding and verified properties

    The service is a thin layer of four FastAPI handlers over a MongoDB
    collection named "product".  The handlers are embedded as functions in a
    small state-and-exception monad; every call that reaches the store is
    recorded in a trace, so that "no write was attempted" is a statement about
    the trace and the store state, not about the reply alone.

    The store itself (the [database] helper module and the pymongo driver) is
    an interface, [Store]; an in-memory collection implements it. *)

From Stdlib Require Import Floats ZArith Ascii String OrderedTypeEx.
From stdpp Require Import base option list strings sorting gmap.

Set Warnings "-inexact-float".
Local Open Scope string_scope.
Local Open Scope Z_scope.
Local Open Scope list_scope.

(** ** Exceptions and replies *)

Inductive exn :=
| HTTPException (status_code : Z) (detail : string)
    (* raised by the handlers themselves *)
| RequestValidationError
    (* raised by the framework when a query parameter or the body is invalid *)
| ValidationError
    (* raised by a pydantic model constructor called inside a handler *)
| InvalidId
    (* raised by bson's ObjectId constructor *)
| DriverError (msg : string)
    (* any exception coming out of the driver or the database helpers *)
| Unmodelled (what : string).
    (* not an exception of the program: marks a store request that the
       in-memory store below does not interpret *)

Inductive result (A : Type) :=
| Ok (a : A)
| Raise (e : exn).
Arguments Ok {A} a.
Arguments Raise {A} e.

#[global] Instance result_ret : MRet result := fun A a => Ok a.
#[global] Instance result_bind : MBind result :=
  fun A B k r => match r with Ok a => k a | Raise e => Raise e end.

(** The status line the framework sends for the outcome of a handler. *)
Definition status_of {A} (r : result A) : Z :=
  match r with
  | Ok _ => 200
  | Raise (HTTPException code _) => code
  | Raise RequestValidationError => 422
  | Raise _ => 500
  end.

(** ** Data model *)

(** The fields of a product as the handlers write them (the keys of the
    sample dictionaries and of the document built by [create_product]). *)
Record ProductFields := mkFields {
  title : string;
  description : option string;
  price : float;
  category : string;
  in_stock : bool;
  image : option string;
  rating : option float;
}.

(** A stored document: the fields and the [_id] the store assigned.  An
    ObjectId is represented by its 24-digit hexadecimal form, which is what
    [str] returns for it. *)
Record Document := mkDoc {
  _id : string;
  fields : ProductFields;
}.

(** The serialised record: [_id] replaced by the string [id]. *)
Record Item := mkItem {
  id : string;
  item_fields : ProductFields;
}.

(** The request body model of [create_product]. *)
Record CreateProduct := mkCreateProduct {
  cp_title : string;
  cp_description : option string;
  cp_price : float;
  cp_category : string;
  cp_in_stock : bool;
  cp_image : option string;
  cp_rating : option float;
}.

(** ** Query filters

    The dictionary [filt] that [list_products] hands to the store.  A
    dictionary is a conjunction of its entries; an entry is either a field
    condition or an ["$or"] over field conditions. *)

Inductive condition :=
| CEq (value : string)                         (* {field: value} *)
| CRegex (pattern : string) (options : string). (* {"$regex":_, "$options":_} *)

Inductive clause :=
| Field (name : string) (c : condition)
| Or (alternatives : list (string * condition)).

Definition mongo_filter := list clause.

(** ** Calls that reach the store *)

Inductive call :=
| CountDocuments
| CreateDocument (f : ProductFields)
| GetDocuments (filt : mongo_filter) (limit : Z)
| Distinct (field : string)
| FindOneByDefaultDatabase
| FindOneById (oid : string)
| FindOneLatest.

(** ** The handler monad: store state, trace, exceptions *)

Definition M (S A : Type) : Type := S -> list call -> result A * S * list call.

Definition ret {S A} (a : A) : M S A := fun s t => (Ok a, s, t).

Definition bind {S A B} (m : M S A) (k : A -> M S B) : M S B :=
  fun s t =>
    match m s t with
    | (Ok a, s', t') => k a s' t'
    | (Raise e, s', t') => (Raise e, s', t')
    end.

(** [try: m except Exception: h] *)
Definition try_except {S A} (m : M S A) (h : M S A) : M S A :=
  fun s t =>
    match m s t with
    | (Ok a, s', t') => (Ok a, s', t')
    | (Raise _, s', t') => h s' t'
    end.

(** A read of the store: the state is unchanged, the call is recorded. *)
Definition read {S A} (c : call) (op : S -> result A) : M S A :=
  fun s t => (op s, s, t ++ [c]).

(** A write: the state changes only when the store accepts the write. *)
Definition write {S A} (c : call) (op : S -> result (A * S)) : M S A :=
  fun s t =>
    match op s with
    | Ok (a, s') => (Ok a, s', t ++ [c])
    | Raise e => (Raise e, s, t ++ [c])
    end.

#[global] Instance M_ret {S} : MRet (M S) := fun A a => ret a.
#[global] Instance M_bind {S} : MBind (M S) := fun A B k m => bind m k.

(** [for x in xs: f(x)] *)
Fixpoint for_each {S A} (xs : list A) (f : A -> M S unit) : M S unit :=
  match xs with
  | [] => ret tt
  | x :: xs' => f x;; for_each xs' f
  end.

(** What a handler hands back: its outcome, the global [db] afterwards, and
    the calls it made. *)
Definition reply (S A : Type) : Type := result A * option S * list call.

Definition run {S A} (body : M S A) (s : S) : reply S A :=
  match body s [] with
  | (r, s', t) => (r, Some s', t)
  end.

(** ** The store interface

    [db] is the handle exported by the [database] module ([None] when the
    connection is not configured); [create_document] and [get_documents] are
    that module's helpers; the other operations are methods of
    [db["product"]]. *)

Class Store (S : Type) := {
  count_documents : S -> result nat;
  create_document : ProductFields -> S -> result (string * S);
  get_documents : mongo_filter -> Z -> S -> result (list Document);
  distinct : string -> S -> result (list string);
}.

(** The lookups that only [create_product] performs, and bson's [ObjectId]
    constructor applied to a string. *)
Class Lookup (S : Type) := {
  find_one_by_default_database : S -> result (option Document);
  ObjectId : string -> result string;
  find_one_by_id : string -> S -> result (option Document);
  find_one_latest : S -> result (option Document);
}.

(** A computation that does not touch the store. *)
Definition lift {S A} (r : result A) : M S A := fun s t => (r, s, t).

(** ** Text: case folding and substrings *)

Definition printable (c : ascii) : bool :=
  let n := N_of_ascii c in (32 <=? n)%N && (n <=? 126)%N.

Fixpoint plain_text (s : string) : bool :=
  match s with
  | EmptyString => true
  | String c s' => printable c && plain_text s'
  end.

Definition lower (c : ascii) : ascii :=
  let n := N_of_ascii c in
  if ((65 <=? n) && (n <=? 90))%N then ascii_of_N (n + 32) else c.

Fixpoint lower_string (s : string) : string :=
  match s with
  | EmptyString => EmptyString
  | String c s' => String (lower c) (lower_string s')
  end.

(** [p] occurs in [t]. *)
Definition is_substring (p t : string) : Prop :=
  exists pre post, t = String.append pre (String.append p post).

(** [p] occurs in [t] when letter case is ignored. *)
Definition ci_substring (p t : string) : Prop :=
  is_substring (lower_string p) (lower_string t).

Fixpoint contains (p t : string) : bool :=
  String.prefix p t ||
  match t with
  | EmptyString => false
  | String _ t' => contains p t'
  end.

Definition icontains (p t : string) : bool :=
  contains (lower_string p) (lower_string t).

(** ** Regular expressions: the fragment of the store's engine that is
    interpreted

    The store reads the ["$regex"] string as a Perl-compatible regular
    expression.  Interpreted here: patterns of printable ASCII characters in
    which every character is either an ordinary character or the dot, with
    option string ["i"] (caseless) or empty, searched in subjects of printable
    ASCII characters.  Everything else is left uninterpreted ([None]). *)

Definition regex_meta (c : ascii) : bool :=
  existsb (Ascii.eqb c) (list_ascii_of_string "\^$.|?*+()[]{}").

Inductive atom :=
| Lit (c : ascii)
| AnyChar.

Fixpoint regex_parse (p : string) : option (list atom) :=
  match p with
  | EmptyString => Some []
  | String c p' =>
      if negb (printable c) then None
      else if Ascii.eqb c "." then cons AnyChar <$> regex_parse p'
      else if regex_meta c then None
      else cons (Lit c) <$> regex_parse p'
  end.

Definition regex_options (o : string) : option bool :=
  if String.eqb o "" then Some false
  else if String.eqb o "i" then Some true
  else None.

Definition atom_matches (caseless : bool) (a : atom) (c : ascii) : bool :=
  match a with
  | AnyChar => true
  | Lit x => if caseless then Ascii.eqb (lower x) (lower c) else Ascii.eqb x c
  end.

Fixpoint match_here (caseless : bool) (atoms : list atom) (s : string) : bool :=
  match atoms, s with
  | [], _ => true
  | a :: atoms', String c s' => atom_matches caseless a c && match_here caseless atoms' s'
  | _ :: _, EmptyString => false
  end.

Fixpoint search_from (caseless : bool) (atoms : list atom) (s : string) : bool :=
  match_here caseless atoms s ||
  match s with
  | EmptyString => false
  | String _ s' => search_from caseless atoms s'
  end.

(** The value of a text field can be null, which no regular expression
    matches. *)
Definition regex_search (pattern options : string) (subject : option string)
  : option bool :=
  atoms ← regex_parse pattern;
  caseless ← regex_options options;
  match subject with
  | None => Some false
  | Some s => if plain_text s then Some (search_from caseless atoms s) else None
  end.

(** ** Evaluation of a filter on a document *)

Definition text_field (name : string) (f : ProductFields) : option (option string) :=
  if String.eqb name "title" then Some (Some (title f))
  else if String.eqb name "description" then Some (description f)
  else if String.eqb name "category" then Some (Some (category f))
  else None.

Definition condition_holds (name : string) (c : condition) (f : ProductFields)
  : option bool :=
  v ← text_field name f;
  match c with
  | CEq value => Some (bool_decide (v = Some value))
  | CRegex pattern options => regex_search pattern options v
  end.

Fixpoint any_holds (alts : list (string * condition)) (f : ProductFields)
  : option bool :=
  match alts with
  | [] => Some false
  | (name, c) :: alts' =>
      b ← condition_holds name c f;
      bs ← any_holds alts' f;
      Some (b || bs)
  end.

Definition clause_holds (c : clause) (f : ProductFields) : option bool :=
  match c with
  | Field name cond => condition_holds name cond f
  | Or alts => any_holds alts f
  end.

Fixpoint filter_holds (filt : mongo_filter) (f : ProductFields) : option bool :=
  match filt with
  | [] => Some true
  | c :: filt' =>
      b ← clause_holds c f;
      bs ← filter_holds filt' f;
      Some (b && bs)
  end.

(** The documents of [ds] that satisfy [filt], in storage order. *)
Fixpoint select (filt : mongo_filter) (ds : list Document) : option (list Document) :=
  match ds with
  | [] => Some []
  | d :: ds' =>
      b ← filter_holds filt (fields d);
      rest ← select filt ds';
      Some (if b : bool then d :: rest else rest)
  end.

(** ** The in-memory store *)

Record Mem := mkMem {
  docs : list Document;   (* the "product" collection, in insertion order *)
  next_oid : N;           (* the next identifier the store hands out *)
}.

Definition hex_digit (n : N) : ascii :=
  nth (N.to_nat n) (list_ascii_of_string "0123456789abcdef") "0"%char.

Fixpoint hex_of (width : nat) (n : N) : string :=
  match width with
  | O => EmptyString
  | S w => String.append (hex_of w (n / 16)) (String (hex_digit (n mod 16)) EmptyString)
  end.

Definition fresh_oid (n : N) : string := hex_of 24 n.

(** Modelled from the spec: [database.create_document], which is not in the
    source tree.  "Inserts exactly one new record; assigns a fresh unique id";
    the handlers use its return value as the string form of that id. *)
Definition mem_create_document (f : ProductFields) (st : Mem)
  : result (string * Mem) :=
  let oid := fresh_oid (next_oid st) in
  Ok (oid, {| docs := docs st ++ [mkDoc oid f]; next_oid := N.succ (next_oid st) |}).

(** Modelled from the spec: [database.get_documents], which is not in the
    source tree.  "Ordered sequence of matching products (storage-defined
    order when unspecified), capped at limit items".  The spec speaks of
    limits from 1 upwards only; a smaller limit is left uninterpreted, and
    so is a filter whose regular expression or whose subjects are outside
    the interpreted fragment: the answer [Unmodelled] says nothing of what
    the store does there. *)
Definition mem_get_documents (filt : mongo_filter) (limit : Z) (st : Mem)
  : result (list Document) :=
  if limit <? 1 then Raise (Unmodelled "limit below 1")
  else
    match select filt (docs st) with
    | Some ds => Ok (take (Z.to_nat limit) ds)
    | None => Raise (Unmodelled "regular expression outside the interpreted fragment")
    end.

(** [collection.distinct(field)]: the distinct values of a text field; a null
    value is not a string and is dropped by the caller's truthiness test, so
    it is left out here. *)
Definition mem_distinct (field : string) (st : Mem) : result (list string) :=
  if bool_decide (field ∈ ["title"; "description"; "category"]) then
    Ok (remove_dups
          (omap (fun d => mjoin (text_field field (fields d))) (docs st)))
  else Raise (Unmodelled "distinct over a field that is not text").

#[global] Instance mem_store : Store Mem := {|
  count_documents st := Ok (length (docs st));
  create_document := mem_create_document;
  get_documents := mem_get_documents;
  distinct := mem_distinct;
|}.

(** A store that acknowledges writes and holds nothing: every lookup comes
    back empty, and the identifier it reports is not the string form of an
    ObjectId. *)
#[global] Instance null_store : Store unit := {|
  count_documents _ := Ok 0%nat;
  create_document _ _ := Ok ("unacknowledged", tt);
  get_documents _ _ _ := Ok [];
  distinct _ _ := Ok [];
|}.

#[global] Instance null_lookup : Lookup unit := {|
  find_one_by_default_database _ := Ok None;
  ObjectId _ := Raise InvalidId;
  find_one_by_id _ _ := Ok None;
  find_one_latest _ := Ok None;
|}.

(** ** The handlers of main.py *)

Record ProductList := mkProductList { items : list (option Item) }.
Record CategoryList := mkCategoryList { category_items : list string }.
Record Created := mkCreated { item : option Item }.

Inductive SeedReply :=
| AlreadySeeded (status message : string) (count : nat)
| Seeded (status : string) (inserted count : nat).

Definition _serialize (doc : option Document) : option Item :=
  match doc with
  | None => None
  | Some d => Some {| id := _id d; item_fields := fields d |}
  end.

(** Python's truth value of a string. *)
Definition truthy (s : string) : bool := negb (String.eqb s "").

Definition str_le (a b : string) : Prop := String.leb a b = true.

#[global] Instance str_le_dec : RelDecision str_le.
Proof. intros a b. unfold str_le. apply _. Defined.

(** [sorted] on a list of strings.  Strings are compared byte by byte; on
    UTF-8 text that is the order of code points, which is Python's. *)
Definition sorted (l : list string) : list string := merge_sort str_le l.

Definition not_configured : exn := HTTPException 500 "Database not configured".

(** The built-in sample of [seed_products]. *)
Definition sample : list ProductFields := [
  {| title := "Apple iPhone 15";
     description := Some "Dynamic Island, A16 Bionic, 6.1-inch Super Retina XDR";
     price := 799.0;
     category := "Mobiles";
     in_stock := true;
     image := Some "https://images.unsplash.com/photo-1695048133142-93b2b88a93df?w=800";
     rating := Some 4.6%float |};
  {| title := "Samsung Galaxy S23";
     description := Some "Snapdragon 8 Gen 2, Pro-grade camera";
     price := 699.0;
     category := "Mobiles";
     in_stock := true;
     image := Some "https://images.unsplash.com/photo-1675866231057-1c5efb395c3b?w=800";
     rating := Some 4.5%float |};
  {| title := "Sony WH-1000XM5";
     description := Some "Industry leading noise canceling headphones";
     price := 349.0;
     category := "Audio";
     in_stock := true;
     image := Some "https://images.unsplash.com/photo-1546435770-a3e426bf472b?w=800";
     rating := Some 4.7%float |};
  {| title := "HP Victus Gaming Laptop";
     description := Some "Ryzen 7, RTX 4060, 16GB RAM, 512GB SSD";
     price := 1199.0;
     category := "Laptops";
     in_stock := true;
     image := Some "https://images.unsplash.com/photo-1517336714731-489689fd1ca8?w=800";
     rating := Some 4.3%float |};
  {| title := "Nike Air Max";
     description := Some "Breathable mesh, all-day comfort";
     price := 129.0;
     category := "Fashion";
     in_stock := true;
     image := Some "https://images.unsplash.com/photo-1542291026-7eec264c27ff?w=800";
     rating := Some 4.4%float |};
  {| title := "Canon EOS R10";
     description := Some "Mirrorless camera with 24.2MP sensor";
     price := 999.0;
     category := "Cameras";
     in_stock := true;
     image := Some "https://images.unsplash.com/photo-1519183071298-a2962be96f83?w=800";
     rating := Some 4.5%float |}
].

Section Handlers.
Context {S : Type} `{!Store S}.

(** The dictionary [filt] built from the two optional parameters. *)
Definition build_filter (search category : option string) : mongo_filter :=
  let filt := [] in
  let filt :=
    match search with
    | Some q =>
        if truthy q
        then filt ++ [Or [("title", CRegex q "i"); ("description", CRegex q "i")]]
        else filt
    | None => filt
    end in
  let filt :=
    match category with
    | Some c => if truthy c then filt ++ [Field "category" (CEq c)] else filt
    | None => filt
    end in
  filt.

Definition list_products (db : option S) (search category : option string)
    (limit : Z) : reply S ProductList :=
  match db with
  | None => (Raise not_configured, db, [])
  | Some s =>
      let filt := build_filter search category in
      run (docs ← read (GetDocuments filt limit) (get_documents filt limit);
           mret {| items := map (fun d => _serialize (Some d)) docs |}) s
  end.

Definition get_categories (db : option S) : reply S CategoryList :=
  match db with
  | None => (Raise not_configured, db, [])
  | Some s =>
      run (cats ← read (Distinct "category") (distinct "category");
           mret {| category_items :=
                     sorted (filter (fun c => truthy c) cats) |}) s
  end.

Definition seed_products (db : option S) : reply S SeedReply :=
  match db with
  | None => (Raise not_configured, db, [])
  | Some s =>
      run (count ← read CountDocuments count_documents;
           if (0 <? count)%nat
           then mret (AlreadySeeded "ok" "Products already exist" count)
           else
             for_each sample
               (fun s => _ ← write (CreateDocument s) (create_document s);
                         mret tt);;
             new_count ← read CountDocuments count_documents;
             mret (Seeded "ok" (length sample) new_count)) s
  end.

End Handlers.

(** What [p.model_dump()] contains for the schema instance [p]. *)
Record ProductSchemaDump := mkDump {
  ps_title : string;
  ps_description : option string;
  ps_price : float;
  ps_category : string;
  ps_in_stock : bool;
}.

Section CreateProduct.
Context {S : Type} `{!Store S} `{!Lookup S}.

(** Modelled from the spec: [schemas.Product], which is not in the source
    tree.  The constructor is called with the five keyword arguments below;
    it either raises or yields a model whose dump holds those five fields
    (section 3 of the spec lists them).  What it accepts is left open. *)
Variable ProductSchema :
  string -> option string -> float -> string -> bool -> result ProductSchemaDump.

(** The lookup after the write is the one whose [_id] is a database handle;
    its result [doc] is not used, an exception it raises is not caught.  The
    block under [try] is the import and call of [ObjectId] followed by the
    lookup by identifier; [except Exception] covers both. *)
Definition create_product (db : option S) (payload : CreateProduct)
    : reply S Created :=
  match db with
  | None => (Raise not_configured, db, [])
  | Some s =>
      run (p ← lift (ProductSchema (cp_title payload) (cp_description payload)
                       (cp_price payload) (cp_category payload)
                       (cp_in_stock payload));
           let document :=
             {| title := ps_title p;
                description := ps_description p;
                price := ps_price p;
                category := ps_category p;
                in_stock := ps_in_stock p;
                image := cp_image payload;
                rating := cp_rating payload |} in
           new_id ← write (CreateDocument document) (create_document document);
           doc ← read FindOneByDefaultDatabase find_one_by_default_database;
           created ←
             try_except
               (oid ← lift (ObjectId new_id);
                read (FindOneById oid) (find_one_by_id oid))
               (read FindOneLatest find_one_latest);
           mret {| item := _serialize created |}) s
  end.

End CreateProduct.

(** ** The framework layer: what runs before a handler is called *)

(** [Query(default, ge=.., le=..)] on an integer parameter. *)
Record IntQuery := mkIntQuery {
  q_default : Z;
  q_ge : Z;
  q_le : Z;
}.

(** The parameter is absent, or it is an integer; an integer outside the
    declared bounds is refused. *)
Definition validate_query (q : IntQuery) (raw : option Z) : result Z :=
  match raw with
  | None => Ok (q_default q)
  | Some n =>
      if (q_ge q <=? n) && (n <=? q_le q) then Ok n
      else Raise RequestValidationError
  end.

(** [limit: int = Query(48, ge=1, le=200)] *)
Definition limit_query : IntQuery :=
  {| q_default := 48; q_ge := 1; q_le := 200 |}.

(** GET /api/products *)
Definition GET_api_products {S} `{!Store S} (db : option S)
    (search category : option string) (raw_limit : option Z)
    : reply S ProductList :=
  match validate_query limit_query raw_limit with
  | Raise e => (Raise e, db, [])
  | Ok limit => list_products db search category limit
  end.

(** A parsed JSON value. *)
#[local] Unset Elimination Schemes.
Inductive json :=
| JNull
| JBool (b : bool)
| JInt (n : Z)
| JFloat (x : float)
| JString (s : string)
| JArray (xs : list json)
| JObject (members : list (string * json)).
#[local] Set Elimination Schemes.

Section Body.
(** The validation library's coercions for the three primitive types. *)
Variable str_validator : json -> option string.
Variable float_validator : json -> option float.
Variable bool_validator : json -> option bool.

Definition validated {A} (v : json -> option A) (j : json) : result A :=
  match v j with
  | Some a => Ok a
  | None => Raise RequestValidationError
  end.

(** [name: T] *)
Definition required {A} (v : json -> option A) (body : gmap string json)
    (name : string) : result A :=
  match body !! name with
  | None => Raise RequestValidationError
  | Some j => validated v j
  end.

(** [name: Optional[T] = None] *)
Definition optional {A} (v : json -> option A) (body : gmap string json)
    (name : string) : result (option A) :=
  match body !! name with
  | None => Ok None
  | Some JNull => Ok None
  | Some j => a ← validated v j; Ok (Some a)
  end.

(** [name: T = default] *)
Definition defaulted {A} (v : json -> option A) (default : A)
    (body : gmap string json) (name : string) : result A :=
  match body !! name with
  | None => Ok default
  | Some j => validated v j
  end.

(** The request body checked against the class [CreateProduct]. *)
Definition validate_CreateProduct (body : gmap string json)
    : result CreateProduct :=
  t ← required str_validator body "title";
  d ← optional str_validator body "description";
  p ← required float_validator body "price";
  c ← required str_validator body "category";
  s ← defaulted bool_validator true body "in_stock";
  i ← optional str_validator body "image";
  r ← optional float_validator body "rating";
  Ok {| cp_title := t; cp_description := d; cp_price := p; cp_category := c;
        cp_in_stock := s; cp_image := i; cp_rating := r |}.

(** POST /api/products *)
Definition POST_api_products {S} `{!Store S} `{!Lookup S}
    (ProductSchema :
       string -> option string -> float -> string -> bool -> result ProductSchemaDump)
    (db : option S) (body : gmap string json) : reply S Created :=
  match validate_CreateProduct body with
  | Raise e => (Raise e, db, [])
  | Ok payload => create_product ProductSchema db payload
  end.

End Body.

(** ** Reference notions and sample inputs used by the statements *)

(** The nearest value of the interval [lo, hi]. *)
Definition clamp (lo hi n : Z) : Z := Z.max lo (Z.min hi n).

Definition empty_store : Mem := {| docs := []; next_oid := 0 |}.

(** The store after one call of [seed_products] on the empty store. *)
Definition seeded_store : Mem :=
  match seed_products (Some empty_store) with
  | (_, Some st, _) => st
  | _ => empty_store
  end.

(** The in-memory store after one more record, and after a list of them. *)
Definition stored (f : ProductFields) (st : Mem) : Mem :=
  {| docs := docs st ++ [mkDoc (fresh_oid (next_oid st)) f];
     next_oid := N.succ (next_oid st) |}.

Definition stored_all (fs : list ProductFields) (st : Mem) : Mem :=
  fold_left (fun st f => stored f st) fs st.

(** A schema constructor that accepts its arguments as they are. *)
Definition accept_all (t : string) (d : option string) (p : float) (c : string)
    (s : bool) : result ProductSchemaDump :=
  Ok {| ps_title := t; ps_description := d; ps_price := p; ps_category := c;
        ps_in_stock := s |}.

(** Coercions that accept exactly the JSON values of their own type. *)
Definition only_str (j : json) : option string :=
  match j with JString s => Some s | _ => None end.
Definition only_float (j : json) : option float :=
  match j with JFloat x => Some x | _ => None end.
Definition only_bool (j : json) : option bool :=
  match j with JBool b => Some b | _ => None end.

Definition iphone : CreateProduct :=
  {| cp_title := "Apple iPhone 15"; cp_description := None; cp_price := 799.0;
     cp_category := "Mobiles"; cp_in_stock := true; cp_image := None;
     cp_rating := None |}.

Definition accept_all_dump_iphone : ProductSchemaDump :=
  {| ps_title := "Apple iPhone 15"; ps_description := None; ps_price := 799.0;
     ps_category := "Mobiles"; ps_in_stock := true |}.

(** A request body without the key "title". *)
Definition body_without_title : gmap string json :=
  <["price" := JFloat 799.0]> (<["category" := JString "Mobiles"]> ∅).

(** The document [create_product] writes for a payload the schema accepted
    with dump [p]. *)
Definition document_of (p : ProductSchemaDump) (payload : CreateProduct)
    : ProductFields :=
  {| title := ps_title p; description := ps_description p;
     price := ps_price p; category := ps_category p;
     in_stock := ps_in_stock p; image := cp_image payload;
     rating := cp_rating payload |}.

(** The reply of [create_product] once the lookup that produced [created]
    has answered. *)
Definition reply_of_lookup (created : result (option Document)) : result Created :=
  found ← created; Ok {| item := _serialize found |}.

(** A search string whose characters the regular expression engine all
    reads as ordinary characters. *)
Fixpoint literal (q : string) : bool :=
  match q with
  | EmptyString => true
  | String c q' => printable c && negb (regex_meta c) && literal q'
  end.

(** The text fields of a product are printable ASCII. *)
Definition plain_fields (f : ProductFields) : bool :=
  plain_text (title f) &&
  match description f with
  | Some d => plain_text d
  | None => true
  end.

(** [q] occurs, letter case ignored, in the title or in the description. *)
Definition text_matches (q : string) (f : ProductFields) : bool :=
  icontains q (title f) ||
  match description f with
  | Some d => icontains q d
  | None => false
  end.

(** The same as a proposition, in terms of [ci_substring]. *)
Definition occurs_in_text (q : string) (f : ProductFields) : Prop :=
  ci_substring q (title f) \/
  exists d, description f = Some d /\ ci_substring q d.



Definition sony : Document :=
  {| _id := "000000000000000000000002";
     fields :=
       {| title := "Sony WH-1000XM5";
          description := Some "Industry leading noise canceling headphones";
          price := 349.0;
          category := "Audio";
          in_stock := true;
          image := Some "https://images.unsplash.com/photo-1546435770-a3e426bf472b?w=800";
          rating := Some 4.7%float |} |}.

(** The filter that [list_products] builds for a non-empty search string
    alone. *)
Definition search_filter (q : string) : mongo_filter :=
  [Or [("title", CRegex q "i"); ("description", CRegex q "i")]].

(** ** Further stores and reference notions *)

(** The store after the documents [fs] have been created one after the
    other, when every creation succeeds. *)
Fixpoint create_many {S} `{!Store S} (fs : list ProductFields) (s : S)
  : result S :=
  match fs with
  | [] => Ok s
  | f :: fs' =>
      match create_document f s with
      | Ok (_, s') => create_many fs' s'
      | Raise e => Raise e
      end
  end.

(** An in-memory store with a quota: a write beyond [capacity] documents is
    refused by the store. *)
Record Capped := mkCapped {
  held : Mem;
  capacity : nat;
}.

Definition capped_create_document (f : ProductFields) (c : Capped)
  : result (string * Capped) :=
  if (length (docs (held c)) <? capacity c)%nat
  then Ok (fresh_oid (next_oid (held c)),
           {| held := stored f (held c); capacity := capacity c |})
  else Raise (DriverError "quota exceeded").

#[global] Instance capped_store : Store Capped := {|
  count_documents c := Ok (length (docs (held c)));
  create_document := capped_create_document;
  get_documents filt limit c := mem_get_documents filt limit (held c);
  distinct field c := mem_distinct field (held c);
|}.

(** A schema constructor that refuses every product. *)
Definition refuse_all (t : string) (d : option string) (p : float) (c : string)
    (s : bool) : result ProductSchemaDump :=
  Raise ValidationError.

(** The calls of [create_product] that only read. *)
Definition is_lookup (c : call) : bool :=
  match c with
  | FindOneByDefaultDatabase | FindOneById _ | FindOneLatest => true
  | _ => false
  end.

(** ** Lookups on the in-memory store *)

Definition is_hex (c : ascii) : bool :=
  let n := N_of_ascii c in
  ((48 <=? n) && (n <=? 57) || (97 <=? n) && (n <=? 102)
   || (65 <=? n) && (n <=? 70))%N.

(** The white space that [bytes.fromhex] skips. *)
Definition is_space (c : ascii) : bool :=
  let n := N_of_ascii c in ((9 <=? n) && (n <=? 13) || (n =? 32))%N.

Fixpoint all_chars (p : ascii -> bool) (s : string) : bool :=
  match s with
  | EmptyString => true
  | String c s' => p c && all_chars p s'
  end.

(** bson's [ObjectId(s)] for a string: 24 hexadecimal digits are accepted,
    and upper and lower case digits denote the same identifier; anything
    else raises, except that a 24-character string of digits and white space
    is left uninterpreted. *)
Definition mem_ObjectId (s : string) : result string :=
  if negb (String.length s =? 24)%nat then Raise InvalidId
  else if all_chars is_hex s then Ok (lower_string s)
  else if all_chars (fun c => is_hex c || is_space c) s
       then Raise (Unmodelled "identifier with white space")
       else Raise InvalidId.

(** [find_one({"_id": oid})] *)
Definition mem_find_one_by_id (oid : string) (st : Mem)
  : result (option Document) :=
  Ok (List.find (fun d => String.eqb (_id d) oid) (docs st)).

(** [find_one(sort=[("_id", -1)])]: the document with the greatest
    identifier. *)
Definition later (best : option Document) (d : Document) : option Document :=
  match best with
  | None => Some d
  | Some b => if String.ltb (_id b) (_id d) then Some d else Some b
  end.

Definition mem_find_one_latest (st : Mem) : result (option Document) :=
  Ok (fold_left later (docs st) None).

(** The lookups of [create_product] on the in-memory store.  What the lookup
    by the database handle does is not determined by the source; its outcome
    [first] is a parameter. *)
Definition mem_lookup (first : result (option Document)) : Lookup Mem := {|
  find_one_by_default_database _ := first;
  ObjectId := mem_ObjectId;
  find_one_by_id := mem_find_one_by_id;
  find_one_latest := mem_find_one_latest;
|}.

Definition capped_lookup (first : result (option Document)) : Lookup Capped := {|
  find_one_by_default_database _ := first;
  ObjectId := mem_ObjectId;
  find_one_by_id oid c := mem_find_one_by_id oid (held c);
  find_one_latest c := mem_find_one_latest (held c);
|}.

(** The keys that the class [CreateProduct] declares. *)
Definition model_fields : list string :=
  ["title"; "description"; "price"; "category"; "in_stock"; "image"; "rating"].

(** A complete request body. *)
Definition body_iphone : gmap string json :=
  <["title" := JString "Apple iPhone 15"]>
    (<["price" := JFloat 799.0]> (<["category" := JString "Mobiles"]> ∅)).

(** What the two parameters of [list_products] ask of a document: the
    search string, when it is non-empty, occurs in the title or description
    with letter case ignored; the category, when it is non-empty, is the
    document's category, character for character. *)
Definition wanted (search cat : option string) (d : Document) : bool :=
  match search with
  | Some q => if truthy q then text_matches q (fields d) else true
  | None => true
  end &&
  match cat with
  | Some c => if truthy c then String.eqb (category (fields d)) c else true
  | None => true
  end.

(** The search string, when it is applied, is literal and the stored text is
    printable ASCII. *)
Definition searchable (st : Mem) (search : option string) : Prop :=
  match search with
  | Some q =>
      q <> "" ->
      literal q = true /\
      forall d, d ∈ docs st -> plain_fields (fields d) = true
  | None => True
  end.

(** The reply of [get_categories] on the in-memory store. *)
Definition mem_categories (st : Mem) : list string :=
  sorted (filter (fun c => truthy c)
            (remove_dups
               (omap (fun d => mjoin (text_field "category" (fields d)))
                     (docs st)))).

(** The value of a hexadecimal digit. *)
Definition hex_value (c : ascii) : N :=
  let n := N_of_ascii c in if (n <=? 57)%N then (n - 48)%N else (n - 87)%N.

(** The identifiers in the store are the ones the store handed out, and the
    identifiers are not exhausted. *)
Definition well_formed (st : Mem) : Prop :=
  (next_oid st < 16 ^ 24)%N /\
  forall d, d ∈ docs st -> exists k, (k < next_oid st)%N /\ _id d = fresh_oid k.

(** ** The diagnostic handler test_database *)

(** What a call on the handle may do: return, or raise an exception whose
    [str] is the given text. *)
Inductive attempt (A : Type) :=
| Returns (a : A)
| Raises (message : string).
Arguments Returns {A} a.
Arguments Raises {A} message.

(** The two things test_database asks of the handle: its attribute [name]
    ([None] when the handle has no such attribute) and the names of its
    collections. *)
Class Inspect (S : Type) := {
  name : S -> attempt (option string);
  list_collection_names : S -> attempt (list string);
}.

(** The dictionary [response]. *)
Record Report := mkReport {
  backend : string;
  database : string;
  database_url : option string;
  database_name : option string;
  connection_status : string;
  collections : list string;
}.

Definition set_database (v : string) (r : Report) : Report :=
  {| backend := backend r; database := v; database_url := database_url r;
     database_name := database_name r;
     connection_status := connection_status r; collections := collections r |}.

Definition set_database_url (v : option string) (r : Report) : Report :=
  {| backend := backend r; database := database r; database_url := v;
     database_name := database_name r;
     connection_status := connection_status r; collections := collections r |}.

Definition set_database_name (v : option string) (r : Report) : Report :=
  {| backend := backend r; database := database r;
     database_url := database_url r; database_name := v;
     connection_status := connection_status r; collections := collections r |}.

Definition set_connection_status (v : string) (r : Report) : Report :=
  {| backend := backend r; database := database r;
     database_url := database_url r; database_name := database_name r;
     connection_status := v; collections := collections r |}.

Definition set_collections (v : list string) (r : Report) : Report :=
  {| backend := backend r; database := database r;
     database_url := database_url r; database_name := database_name r;
     connection_status := connection_status r; collections := v |}.

(** [str(e)[:50]]; the text of an exception is taken to be ASCII, so that
    its first 50 characters are its first 50 bytes. *)
Definition first50 (message : string) : string := String.substring 0 50 message.

(** The truth value of [os.getenv(key)]: the variable is set and not
    empty. *)
Definition env_set (getenv : string -> option string) (key : string) : bool :=
  match getenv key with
  | Some v => truthy v
  | None => false
  end.

Definition test_database {S} `{!Inspect S} (db : option S)
    (getenv : string -> option string) : Report :=
  let response :=
    {| backend := "✅ Running";
       database := "❌ Not Available";
       database_url := None;
       database_name := None;
       connection_status := "Not Connected";
       collections := [] |} in
  let response :=
    match db with
    | Some h =>
        let response := set_database "✅ Available" response in
        let response := set_database_url (Some "✅ Configured") response in
        match name h with
        | Returns n =>
            let response :=
              set_database_name (Some (default "✅ Connected" n)) response in
            let response := set_connection_status "Connected" response in
            match list_collection_names h with
            | Returns names =>
                let response := set_collections (take 10 names) response in
                set_database "✅ Connected & Working" response
            | Raises message =>
                set_database (String.append "⚠️  Connected but Error: " (first50 message)) response
            end
        | Raises message =>
            set_database (String.append "❌ Error: " (first50 message)) response
        end
    | None => set_database "⚠️  Available but not initialized" response
    end in
  let response :=
    set_database_url
      (Some (if env_set getenv "DATABASE_URL" then "✅ Set" else "❌ Not Set"))
      response in
  let response :=
    set_database_name
      (Some (if env_set getenv "DATABASE_NAME" then "✅ Set" else "❌ Not Set"))
      response in
  response.


(** * Verified properties *)

(** ** The configuration check *)

Section Unconfigured.
Context {S : Type} `{!Store S} `{!Lookup S}.
Variable ProductSchema :
  string -> option string -> float -> string -> bool -> result ProductSchemaDump.

(** C8: with the store handle absent, each of the four handlers raises
    HTTPException(500, "Database not configured"), which the framework
    sends as status 500, and the trace of store calls is empty. *)
Theorem unconfigured_store_fails_fast
    (search category : option string) (limit : Z) (payload : CreateProduct) :
  list_products (S := S) None search category limit
    = (Raise (HTTPException 500 "Database not configured"), None, []) /\
  get_categories (S := S) None
    = (Raise (HTTPException 500 "Database not configured"), None, []) /\
  create_product (S := S) ProductSchema None payload
    = (Raise (HTTPException 500 "Database not configured"), None, []) /\
  seed_products (S := S) None
    = (Raise (HTTPException 500 "Database not configured"), None, []) /\
  status_of (A := unit) (Raise (HTTPException 500 "Database not configured")) = 500.
Proof. repeat split. Qed.

End Unconfigured.

(** ** Query parameters of list_products *)

Section ListParameters.
Context {S : Type} `{!Store S}.

Lemma build_filter_empty_search (category : option string) :
  build_filter (Some "") category = build_filter None category.
Proof. reflexivity. Qed.

Lemma build_filter_empty_category (search : option string) :
  build_filter search (Some "") = build_filter search None.
Proof. unfold build_filter. destruct search as [q|]; reflexivity. Qed.

(** C10: an empty search string, or an empty category, gives the same
    reply, store and trace as the absent parameter, in the handler and
    through the route. *)
Theorem empty_string_parameter_is_absent
    (db : option S) (search category : option string) (limit : Z)
    (raw_limit : option Z) :
  list_products db (Some "") category limit
    = list_products db None category limit /\
  list_products db search (Some "") limit
    = list_products db search None limit /\
  GET_api_products db (Some "") category raw_limit
    = GET_api_products db None category raw_limit /\
  GET_api_products db search (Some "") raw_limit
    = GET_api_products db search None raw_limit.
Proof.
  assert (H1 : forall l, list_products db (Some "") category l
                         = list_products db None category l).
  { intros l. unfold list_products. now rewrite build_filter_empty_search. }
  assert (H2 : forall l, list_products db search (Some "") l
                         = list_products db search None l).
  { intros l. unfold list_products. now rewrite build_filter_empty_category. }
  repeat split; auto; unfold GET_api_products;
    destruct (validate_query limit_query raw_limit); auto.
Qed.

Lemma validate_limit_in_range (n : Z) :
  1 <= n <= 200 -> validate_query limit_query (Some n) = Ok n.
Proof.
  intros [Hlo Hhi]. unfold validate_query, limit_query; simpl.
  apply Z.leb_le in Hlo, Hhi. now rewrite Hlo, Hhi.
Qed.

Lemma validate_limit_out_of_range (n : Z) :
  n < 1 \/ 200 < n ->
  validate_query limit_query (Some n) = Raise RequestValidationError.
Proof.
  intros Hout. unfold validate_query, limit_query; simpl.
  destruct (1 <=? n) eqn:Hlo, (n <=? 200) eqn:Hhi; simpl; try reflexivity.
  apply Z.leb_le in Hlo, Hhi. lia.
Qed.

(** C1 (as amended): an absent limit is 48; a limit in [1,200] reaches the
    handler as it is; a limit outside [1,200] is refused with a request
    validation error (status 422) before the handler runs, so no query is
    made with any limit at all. *)
Theorem limit_is_validated
    (db : option S) (search category : option string) :
  GET_api_products db search category None
    = list_products db search category 48 /\
  (forall n, 1 <= n <= 200 ->
     GET_api_products db search category (Some n)
       = list_products db search category n) /\
  (forall n, n < 1 \/ 200 < n ->
     GET_api_products db search category (Some n)
       = (Raise RequestValidationError, db, []) /\
     status_of (A := ProductList) (Raise RequestValidationError) = 422).
Proof.
  split; [reflexivity | split].
  - intros n Hn. unfold GET_api_products.
    now rewrite (validate_limit_in_range n Hn).
  - intros n Hn. unfold GET_api_products.
    now rewrite (validate_limit_out_of_range n Hn).
Qed.

End ListParameters.

(** The limit 201 through the route: refused, where the clamped limit 200
    would have listed the six sample products. *)
Lemma limit_is_validated_witness :
  GET_api_products (Some seeded_store) None None (Some 201)
    = (Raise RequestValidationError, Some seeded_store, []) /\
  status_of (A := ProductList) (Raise RequestValidationError) = 422.
Proof.
  apply (proj2 (proj2 (limit_is_validated (Some seeded_store) None None))).
  right. lia.
Defined.

(** C1 (as stated) fails: with limit 0 the route does not behave as the
    handler with the clamped limit 1 (which returns the first product); it
    answers with a validation error and never queries the store. *)
Lemma limit_zero_is_not_clamped :
  clamp 1 200 0 = 1 /\
  GET_api_products (Some seeded_store) None None (Some 0)
    = (Raise RequestValidationError, Some seeded_store, []) /\
  GET_api_products (Some seeded_store) None None (Some 0)
    <> list_products (Some seeded_store) None None (clamp 1 200 0).
Proof.
  split; [reflexivity | split; [reflexivity |]].
  vm_compute. discriminate.
Qed.

(** ** create_product *)

Section CreateProductProperties.
Context {S : Type} `{!Store S} `{!Lookup S}.
Variable str_validator : json -> option string.
Variable float_validator : json -> option float.
Variable bool_validator : json -> option bool.
Variable ProductSchema :
  string -> option string -> float -> string -> bool -> result ProductSchemaDump.

Lemma required_missing {A} (v : json -> option A) (body : gmap string json)
    (name : string) :
  body !! name = None -> required v body name = Raise RequestValidationError.
Proof. intros H. unfold required. now rewrite H. Qed.

Lemma required_rejected {A} (v : json -> option A) (body : gmap string json)
    (name : string) (j : json) :
  body !! name = Some j -> v j = None ->
  required v body name = Raise RequestValidationError.
Proof. intros H Hv. unfold required, validated. now rewrite H, Hv. Qed.

Lemma validated_raises {A} (v : json -> option A) (j : json) (e : exn) :
  validated v j = Raise e -> e = RequestValidationError.
Proof. unfold validated. destruct (v j); congruence. Qed.

Lemma required_raises {A} (v : json -> option A) (body : gmap string json)
    (name : string) (e : exn) :
  required v body name = Raise e -> e = RequestValidationError.
Proof.
  unfold required. destruct (body !! name); [apply validated_raises|congruence].
Qed.

Lemma optional_raises {A} (v : json -> option A) (body : gmap string json)
    (name : string) (e : exn) :
  optional v body name = Raise e -> e = RequestValidationError.
Proof.
  unfold optional. destruct (body !! name) as [j|]; [|discriminate].
  destruct j; try discriminate;
    destruct (validated v _) eqn:E; simpl; try discriminate;
    intros [= <-]; eapply validated_raises; eauto.
Qed.

Lemma defaulted_raises {A} (v : json -> option A) (d : A)
    (body : gmap string json) (name : string) (e : exn) :
  defaulted v d body name = Raise e -> e = RequestValidationError.
Proof.
  unfold defaulted. destruct (body !! name); [apply validated_raises|congruence].
Qed.

(** Every failure of the body validation is a request validation error,
    and a body is accepted only if its three required fields are. *)
Lemma validate_CreateProduct_cases (body : gmap string json) :
  validate_CreateProduct str_validator float_validator bool_validator body
    = Raise RequestValidationError \/
  exists payload,
    validate_CreateProduct str_validator float_validator bool_validator body
      = Ok payload /\
    required str_validator body "title" = Ok (cp_title payload) /\
    required float_validator body "price" = Ok (cp_price payload) /\
    required str_validator body "category" = Ok (cp_category payload).
Proof.
  unfold validate_CreateProduct.
  destruct (required str_validator body "title") as [t|e] eqn:Et; simpl;
    [|left; now rewrite (required_raises _ _ _ _ Et)].
  destruct (optional str_validator body "description") as [d|e] eqn:Ed; simpl;
    [|left; now rewrite (optional_raises _ _ _ _ Ed)].
  destruct (required float_validator body "price") as [p|e] eqn:Ep; simpl;
    [|left; now rewrite (required_raises _ _ _ _ Ep)].
  destruct (required str_validator body "category") as [c|e] eqn:Ec; simpl;
    [|left; now rewrite (required_raises _ _ _ _ Ec)].
  destruct (defaulted bool_validator true body "in_stock") as [k|e] eqn:Ek; simpl;
    [|left; now rewrite (defaulted_raises _ _ _ _ _ Ek)].
  destruct (optional str_validator body "image") as [i|e] eqn:Ei; simpl;
    [|left; now rewrite (optional_raises _ _ _ _ Ei)].
  destruct (optional float_validator body "rating") as [r|e] eqn:Er; simpl;
    [|left; now rewrite (optional_raises _ _ _ _ Er)].
  right. eexists. split; [reflexivity|]. simpl. auto.
Qed.

(** C7: a body without "title", without "price" or without "category", or
    whose "price" the float coercion rejects, is answered with a request
    validation error (status 422); the handler is not entered: the store is
    the one before the request and no call reached it, so no write was
    attempted and the collection is unchanged. *)
Theorem invalid_body_is_refused_before_any_write
    (db : option S) (body : gmap string json) :
  body !! "title" = None \/
  body !! "price" = None \/
  body !! "category" = None \/
  (exists j, body !! "price" = Some j /\ float_validator j = None) ->
  POST_api_products str_validator float_validator bool_validator
      ProductSchema db body
    = (Raise RequestValidationError, db, []) /\
  status_of (A := Created) (Raise RequestValidationError) = 422.
Proof.
  intros H. split; [|reflexivity].
  unfold POST_api_products.
  destruct (validate_CreateProduct_cases body)
    as [-> | (payload & _ & Ht & Hp & Hc)]; [reflexivity|].
  exfalso. destruct H as [H | [H | [H | (j & Hj & Hv)]]].
  - rewrite (required_missing _ _ _ H) in Ht. discriminate.
  - rewrite (required_missing _ _ _ H) in Hp. discriminate.
  - rewrite (required_missing _ _ _ H) in Hc. discriminate.
  - rewrite (required_rejected _ _ _ _ Hj Hv) in Hp. discriminate.
Qed.

(** C2 (as amended): once the schema has accepted the payload and the
    record has been written, a first lookup is made whose result is not used
    and whose exception is not caught: when it raises, the request fails
    with that exception, the record staying written.  When it returns, the
    record is re-read by its identifier; when that re-read answers, its
    answer is the reply and no fallback is made, also when the answer is "no
    record"; when it raises (the identifier is refused by ObjectId, or the
    lookup raises) the most recent record is looked up instead, and the
    reply is that lookup's answer: a success whose item is null when it
    finds no record, the record when it finds one, its exception when it
    raises. *)
Theorem create_product_refetch
    (s s1 : S) (payload : CreateProduct) (p : ProductSchemaDump)
    (new_id : string) :
  ProductSchema (cp_title payload) (cp_description payload) (cp_price payload)
      (cp_category payload) (cp_in_stock payload) = Ok p ->
  create_document (document_of p payload) s = Ok (new_id, s1) ->
  let reply := create_product ProductSchema (Some s) payload in
  let written := [CreateDocument (document_of p payload); FindOneByDefaultDatabase] in
  (forall e,
      find_one_by_default_database s1 = Raise e ->
      reply = (Raise e, Some s1, written)) /\
  (forall first,
      find_one_by_default_database s1 = Ok first ->
      (forall oid found,
          ObjectId new_id = Ok oid -> find_one_by_id oid s1 = Ok found ->
          reply = (Ok {| item := _serialize found |}, Some s1,
                   written ++ [FindOneById oid])) /\
      (forall e,
          ObjectId new_id = Raise e ->
          reply = (reply_of_lookup (find_one_latest s1), Some s1,
                   written ++ [FindOneLatest])) /\
      (forall oid e,
          ObjectId new_id = Ok oid -> find_one_by_id oid s1 = Raise e ->
          reply = (reply_of_lookup (find_one_latest s1), Some s1,
                   written ++ [FindOneById oid; FindOneLatest]))) /\
  reply_of_lookup (Ok None) = Ok {| item := None |} /\
  (forall d, reply_of_lookup (Ok (Some d))
             = Ok {| item := Some {| id := _id d; item_fields := fields d |} |}) /\
  (forall e, reply_of_lookup (Raise e) = Raise e).
Proof.
  intros Hp Hw reply written. subst reply written.
  unfold create_product, run, mbind, M_bind, bind, lift, write, read,
    try_except, mret, M_ret, ret.
  rewrite Hp. fold (document_of p payload). rewrite Hw.
  split; [|split; [|repeat split]].
  - intros e Hf. rewrite Hf. reflexivity.
  - intros first Hf. rewrite Hf. simpl. repeat split.
    + intros oid found Ho Hfound. rewrite Ho, Hfound. reflexivity.
    + intros e Ho. rewrite Ho. simpl.
      destruct (find_one_latest s1); reflexivity.
    + intros oid e Ho He. rewrite Ho, He. simpl.
      destruct (find_one_latest s1); reflexivity.
Qed.

(** X8: when the lookup that follows the write raises, the request fails
    with that exception, after the record has been written: the new record
    stays in the store although the caller is told of a failure. *)
Lemma create_product_first_lookup_raises
    (s s1 : S) (payload : CreateProduct) (p : ProductSchemaDump)
    (new_id : string) (e : exn) :
  ProductSchema (cp_title payload) (cp_description payload) (cp_price payload)
      (cp_category payload) (cp_in_stock payload) = Ok p ->
  create_document (document_of p payload) s = Ok (new_id, s1) ->
  find_one_by_default_database s1 = Raise e ->
  create_product ProductSchema (Some s) payload
    = (Raise e, Some s1,
       [CreateDocument (document_of p payload); FindOneByDefaultDatabase]).
Proof.
  intros Hp Hw Hf.
  unfold create_product, run, mbind, M_bind, bind, lift, write, read.
  rewrite Hp. fold (document_of p payload). rewrite Hw, Hf. reflexivity.
Qed.

End CreateProductProperties.

(** A body without "title" sent to the store that holds nothing. *)
Lemma invalid_body_is_refused_before_any_write_witness :
  POST_api_products only_str only_float only_bool accept_all (Some tt)
      body_without_title
    = (Raise RequestValidationError, Some tt, []) /\
  status_of (A := Created) (Raise RequestValidationError) = 422.
Proof.
  apply (invalid_body_is_refused_before_any_write
           only_str only_float only_bool accept_all (Some tt) body_without_title).
  left. reflexivity.
Defined.

(** On the store that holds nothing: the identifier is refused, the fallback
    is taken and finds no record, and the reply is a success with a null
    item. *)
Lemma create_product_refetch_witness :
  create_product accept_all (Some tt) iphone
    = (reply_of_lookup (find_one_latest tt), Some tt,
       [CreateDocument (document_of accept_all_dump_iphone iphone);
        FindOneByDefaultDatabase; FindOneLatest]).
Proof.
  refine (proj1 (proj2 (proj1 (proj2 (create_product_refetch accept_all tt tt
                                        iphone accept_all_dump_iphone
                                        "unacknowledged" _ _))
                          None _)) InvalidId _); reflexivity.
Defined.

(** C2 (as stated) fails: on the store that holds nothing, the re-read by
    identifier fails (ObjectId raises), the fallback returns no record, and
    the caller still gets a successful reply (status 200, item null). *)
Lemma create_product_null_item_is_a_success :
  ObjectId (S := unit) "unacknowledged" = Raise InvalidId /\
  find_one_latest tt = Ok None /\
  create_product accept_all (Some tt) iphone
    = (Ok {| item := None |}, Some tt,
       [CreateDocument (document_of accept_all_dump_iphone iphone);
        FindOneByDefaultDatabase; FindOneLatest]) /\
  status_of (Ok {| item := None |}) = 200.
Proof. repeat split. Qed.

(** ** seed_products *)

(** On any store: when the count is positive, the handler only counts. *)
Lemma seed_products_counts_only {S : Type} `{!Store S} (s : S) (n : nat) :
  count_documents s = Ok n -> (0 < n)%nat ->
  seed_products (Some s)
    = (Ok (AlreadySeeded "ok" "Products already exist" n), Some s, [CountDocuments]).
Proof.
  intros Hc Hn. unfold seed_products, run, mbind, M_bind, bind, read.
  simpl. rewrite Hc. apply Nat.ltb_lt in Hn. rewrite Hn. reflexivity.
Qed.

(** The loop over the sample, on the in-memory store: one write per element,
    in order. *)
Lemma seed_loop (fs : list ProductFields) (st : Mem) (t : list call) :
  for_each fs
    (fun f => _ ← write (CreateDocument f) (create_document f); mret tt) st t
  = (Ok tt, stored_all fs st, t ++ map CreateDocument fs).
Proof.
  revert st t. induction fs as [|f fs IH]; intros st t.
  - simpl. unfold ret. now rewrite app_nil_r.
  - change (stored_all (f :: fs) st) with (stored_all fs (stored f st)).
    cbn [for_each]. unfold mbind at 1, M_bind at 1, bind at 1.
    unfold mbind at 1, M_bind at 1, bind at 1, write at 1.
    cbn [create_document mem_store mem_create_document].
    unfold mret at 1, M_ret at 1, ret at 1.
    fold (stored f st). rewrite IH. cbn [map]. now rewrite <- app_assoc.
Qed.

Lemma stored_all_fields (fs : list ProductFields) (st : Mem) :
  map fields (docs (stored_all fs st)) = map fields (docs st) ++ fs.
Proof.
  revert st. induction fs as [|f fs IH]; intros st; simpl.
  - now rewrite app_nil_r.
  - rewrite IH. simpl. rewrite map_app. simpl. now rewrite <- app_assoc.
Qed.

Lemma seed_products_on_empty (st : Mem) :
  docs st = [] ->
  seed_products (Some st)
    = (Ok (Seeded "ok" 6 6), Some (stored_all sample st),
       CountDocuments :: map CreateDocument sample ++ [CountDocuments]) /\
  map fields (docs (stored_all sample st)) = sample.
Proof.
  intros Hd.
  assert (Hf : map fields (docs (stored_all sample st)) = sample).
  { rewrite stored_all_fields, Hd. reflexivity. }
  split; [|exact Hf].
  unfold seed_products, run.
  unfold mbind at 1, M_bind at 1, bind at 1, read at 1.
  cbn [count_documents mem_store]. rewrite Hd. cbn [length Nat.ltb Nat.leb].
  unfold mbind at 1, M_bind at 1, bind at 1. rewrite seed_loop.
  unfold mbind at 1, M_bind at 1, bind at 1, read at 1.
  cbn [count_documents mem_store].
  replace (length (docs (stored_all sample st))) with 6%nat.
  - unfold mret, M_ret, ret. reflexivity.
  - rewrite <- (length_map fields), Hf. reflexivity.
Qed.

(** C9: on an empty collection the handler writes the six built-in sample
    records, in order and nothing else, and replies with inserted = 6 and
    the count of the collection after the writes, which is 6; the
    categories of the sample are exactly Mobiles, Audio, Laptops, Fashion
    and Cameras. *)
Theorem seed_products_inserts_the_sample (st : Mem) :
  docs st = [] ->
  exists st',
    seed_products (Some st)
      = (Ok (Seeded "ok" 6 (length (docs st'))), Some st',
         CountDocuments :: map CreateDocument sample ++ [CountDocuments]) /\
    map fields (docs st') = sample /\
    length (docs st') = 6%nat /\
    length sample = 6%nat /\
    forall c, c ∈ map category sample <->
              c ∈ ["Mobiles"; "Audio"; "Laptops"; "Fashion"; "Cameras"].
Proof.
  intros Hd. destruct (seed_products_on_empty st Hd) as [Hs Hf].
  assert (Hlen : length (docs (stored_all sample st)) = 6%nat).
  { rewrite <- (length_map fields), Hf. reflexivity. }
  exists (stored_all sample st). rewrite Hlen.
  repeat split; auto.
  - simpl. rewrite !elem_of_cons. rewrite elem_of_nil. tauto.
  - simpl. rewrite !elem_of_cons. rewrite elem_of_nil. tauto.
Qed.

Lemma seed_products_inserts_the_sample_witness :
  exists st',
    seed_products (Some empty_store)
      = (Ok (Seeded "ok" 6 (length (docs st'))), Some st',
         CountDocuments :: map CreateDocument sample ++ [CountDocuments]) /\
    map fields (docs st') = sample /\
    length (docs st') = 6%nat /\
    length sample = 6%nat /\
    forall c, c ∈ map category sample <->
              c ∈ ["Mobiles"; "Audio"; "Laptops"; "Fashion"; "Cameras"].
Proof. apply (seed_products_inserts_the_sample empty_store). reflexivity. Defined.

(** C3: on a collection that holds at least one record the handler writes
    nothing, leaves the store as it is and reports the existing count; and
    from an empty collection the first call inserts and reports
    inserted = 6, count = 6, after which a second call writes nothing and
    reports count = 6 on the unchanged store. *)
Theorem seed_products_idempotent (st : Mem) :
  (docs st <> [] ->
   seed_products (Some st)
     = (Ok (AlreadySeeded "ok" "Products already exist" (length (docs st))),
        Some st, [CountDocuments])) /\
  (docs st = [] ->
   exists st1 calls,
     seed_products (Some st) = (Ok (Seeded "ok" 6 6), Some st1, calls) /\
     seed_products (Some st1)
       = (Ok (AlreadySeeded "ok" "Products already exist" 6),
          Some st1, [CountDocuments])).
Proof.
  split.
  - intros Hne. apply seed_products_counts_only; [reflexivity|].
    destruct (docs st); [congruence | simpl; lia].
  - intros Hd. destruct (seed_products_on_empty st Hd) as [Hs Hf].
    eexists _, _. split; [exact Hs|].
    apply seed_products_counts_only; [|lia].
    cbn [count_documents mem_store]. f_equal.
    rewrite <- (length_map fields), Hf. reflexivity.
Qed.

Lemma seed_products_idempotent_witness :
  seed_products (Some seeded_store)
    = (Ok (AlreadySeeded "ok" "Products already exist" (length (docs seeded_store))),
       Some seeded_store, [CountDocuments]) /\
  exists st1 calls,
    seed_products (Some empty_store) = (Ok (Seeded "ok" 6 6), Some st1, calls) /\
    seed_products (Some st1)
      = (Ok (AlreadySeeded "ok" "Products already exist" 6),
         Some st1, [CountDocuments]).
Proof.
  split.
  - apply (proj1 (seed_products_idempotent seeded_store)). discriminate.
  - apply (proj2 (seed_products_idempotent empty_store)). reflexivity.
Defined.

(** ** get_categories *)

Lemma str_le_cases (a b : string) :
  str_le a b <-> String_as_OT.lt a b \/ a = b.
Proof.
  unfold str_le, String.leb.
  rewrite <- String_as_OT.cmp_lt, <- String_as_OT.cmp_eq.
  unfold String_as_OT.cmp. destruct (String.compare a b); split;
    intros H; try tauto; try discriminate.
  destruct H; discriminate.
Qed.

#[global] Instance str_le_total : Total str_le.
Proof. intros a b. apply String.leb_total. Qed.

#[global] Instance str_le_trans : Transitive str_le.
Proof.
  intros a b c. rewrite !str_le_cases.
  intros [Hab | ->] [Hbc | ->]; auto.
  left. eapply String_as_OT.lt_trans; eauto.
Qed.

Lemma truthy_nonempty (s : string) : truthy s <-> s <> "".
Proof.
  unfold truthy. destruct (String.eqb_spec s ""); simpl; split; auto; tauto.
Qed.

(** What [sorted([c for c in cats if c])] makes of a list without
    duplicates. *)
Lemma sorted_truthy_spec (cats : list string) :
  NoDup cats ->
  let out := sorted (filter (fun c => truthy c) cats) in
  NoDup out /\ ("" ∉ out) /\ StronglySorted str_le out /\
  forall c, c ∈ out <-> c <> "" /\ c ∈ cats.
Proof.
  intros Hnd out.
  assert (Hperm : out ≡ₚ filter (fun c => truthy c) cats)
    by apply merge_sort_Permutation.
  assert (Hin : forall c, c ∈ out <-> c <> "" /\ c ∈ cats).
  { intros c. rewrite Hperm, list_elem_of_filter, truthy_nonempty. tauto. }
  split; [|split; [|split; [|exact Hin]]].
  - rewrite Hperm. now apply NoDup_filter.
  - intros H. apply Hin in H. tauto.
  - apply StronglySorted_merge_sort; apply _.
Qed.

(** C6: the reply of get_categories has no duplicate and no empty string,
    is sorted in the lexicographic order of strings, and holds exactly the
    non-empty category values of the stored products; the store is read
    once and left as it is. *)
Theorem get_categories_sorted_distinct (st : Mem) :
  exists cats,
    get_categories (Some st)
      = (Ok {| category_items := cats |}, Some st, [Distinct "category"]) /\
    NoDup cats /\
    ("" ∉ cats) /\
    StronglySorted str_le cats /\
    forall c, c ∈ cats <->
              c <> "" /\ exists d, d ∈ docs st /\ category (fields d) = c.
Proof.
  set (values := remove_dups
                   (omap (fun d => mjoin (text_field "category" (fields d)))
                         (docs st))).
  exists (sorted (filter (fun c => truthy c) values)).
  destruct (sorted_truthy_spec values (NoDup_remove_dups _))
    as (Hnd & Hne & Hs & Hin).
  split; [reflexivity|]. split; [exact Hnd|]. split; [exact Hne|].
  split; [exact Hs|]. intros c. split.
  - intros H. apply Hin in H. destruct H as [Hc H]. split; [exact Hc|].
    unfold values in H.
    apply elem_of_remove_dups, list_elem_of_omap in H.
    destruct H as (d & Hd & Hcat). exists d. split; [exact Hd|].
    simpl in Hcat. congruence.
  - intros (Hc & d & Hd & Hcat). apply Hin. split; [exact Hc|].
    unfold values. apply elem_of_remove_dups, list_elem_of_omap.
    exists d. split; [exact Hd|]. simpl. congruence.
Qed.

(** ** Search in list_products *)

Lemma append_cons (c : ascii) (s t : string) :
  String.append (String c s) t = String c (String.append s t).
Proof. reflexivity. Qed.

Lemma append_nil (t : string) : String.append EmptyString t = t.
Proof. reflexivity. Qed.

Lemma prefix_spec (p t : string) :
  String.prefix p t = true <-> exists post, t = String.append p post.
Proof.
  revert t. induction p as [|a p IH]; intros t; simpl.
  - destruct t; split; eauto.
  - destruct t as [|b t]; simpl.
    + split; [discriminate | intros [post H]; discriminate].
    + destruct (ascii_dec a b) as [->|Hne].
      * rewrite IH. split; intros [post H]; exists post;
          rewrite append_cons in *; congruence.
      * split; [discriminate | intros [post H]; rewrite append_cons in H; congruence].
Qed.

Lemma contains_spec (p t : string) : contains p t = true <-> is_substring p t.
Proof.
  unfold is_substring. induction t as [|c t IH]; cbn [contains].
  - rewrite orb_false_r, prefix_spec. split.
    + intros [post H]. exists EmptyString, post. exact H.
    + intros (pre & post & H). destruct pre; [eauto | discriminate].
  - rewrite orb_true_iff, prefix_spec, IH. split.
    + intros [[post H] | (pre & post & H)].
      * exists EmptyString, post. exact H.
      * exists (String c pre), post. rewrite append_cons. congruence.
    + intros (pre & post & H). destruct pre as [|c' pre].
      * left. rewrite append_nil in H. eauto.
      * right. exists pre, post. rewrite append_cons in H. congruence.
Qed.

Lemma icontains_spec (q t : string) : icontains q t = true <-> ci_substring q t.
Proof. apply contains_spec. Qed.

Lemma text_matches_spec (q : string) (f : ProductFields) :
  text_matches q f = true <-> occurs_in_text q f.
Proof.
  unfold text_matches, occurs_in_text.
  rewrite orb_true_iff, icontains_spec.
  destruct (description f) as [d|].
  - rewrite icontains_spec. split; intros [H | H]; auto.
    + right. eauto.
    + destruct H as (d' & [= <-] & H). auto.
  - split; intros [H | H]; auto; [discriminate|].
    destruct H as (d' & H & _). discriminate.
Qed.

Lemma regex_parse_literal (q : string) :
  literal q = true -> regex_parse q = Some (map Lit (list_ascii_of_string q)).
Proof.
  induction q as [|c q IH]; simpl; [reflexivity|].
  rewrite !andb_true_iff, negb_true_iff. intros [[Hp Hm] Hq].
  rewrite Hp. simpl. rewrite Hm.
  destruct (Ascii.eqb_spec c "."%char) as [->|_]; [discriminate Hm|].
  rewrite (IH Hq). reflexivity.
Qed.

Lemma match_here_literal (q t : string) :
  match_here true (map Lit (list_ascii_of_string q)) t
  = String.prefix (lower_string q) (lower_string t).
Proof.
  revert t. induction q as [|a q IH]; intros t; simpl.
  - destruct t; reflexivity.
  - destruct t as [|b t]; simpl; [reflexivity|].
    rewrite IH. destruct (ascii_dec (lower a) (lower b)) as [E|E].
    + rewrite E, Ascii.eqb_refl. reflexivity.
    + apply Ascii.eqb_neq in E. rewrite E. reflexivity.
Qed.

Lemma search_from_literal (q t : string) :
  search_from true (map Lit (list_ascii_of_string q)) t = icontains q t.
Proof.
  unfold icontains. induction t as [|c t IH]; simpl.
  - rewrite match_here_literal. reflexivity.
  - rewrite IH, match_here_literal. reflexivity.
Qed.

(** On the interpreted fragment, a literal pattern with option "i" searches
    for a substring, letter case ignored. *)
Lemma regex_search_literal (q : string) (subject : option string) :
  literal q = true ->
  match subject with Some t => plain_text t = true | None => True end ->
  regex_search q "i" subject
  = Some (match subject with Some t => icontains q t | None => false end).
Proof.
  intros Hq Ht. unfold regex_search. rewrite (regex_parse_literal q Hq).
  simpl. destruct subject as [t|]; [|reflexivity].
  rewrite Ht, search_from_literal. reflexivity.
Qed.

Lemma build_filter_search (q : string) :
  q <> "" ->
  build_filter (Some q) None
  = [Or [("title", CRegex q "i"); ("description", CRegex q "i")]].
Proof.
  intros Hq. apply truthy_nonempty in Hq. unfold build_filter.
  destruct (truthy q); [reflexivity | contradiction].
Qed.


Lemma filter_holds_search (q : string) (f : ProductFields) :
  literal q = true -> plain_fields f = true ->
  filter_holds [Or [("title", CRegex q "i"); ("description", CRegex q "i")]] f
  = Some (text_matches q f).
Proof.
  intros Hq Hf. unfold plain_fields in Hf. apply andb_true_iff in Hf.
  destruct Hf as [Ht Hd].
  cbn [filter_holds clause_holds any_holds].
  change (condition_holds "title" (CRegex q "i") f)
    with (regex_search q "i" (Some (title f))).
  change (condition_holds "description" (CRegex q "i") f)
    with (regex_search q "i" (description f)).
  rewrite (regex_search_literal q (Some (title f)) Hq Ht).
  rewrite (regex_search_literal q (description f) Hq).
  - unfold text_matches. simpl.
    now rewrite orb_false_r, andb_true_r.
  - destruct (description f); auto.
Qed.

Lemma select_pointwise (filt : mongo_filter) (P : Document -> bool)
    (ds : list Document) :
  (forall d, d ∈ ds -> filter_holds filt (fields d) = Some (P d)) ->
  select filt ds = Some (List.filter P ds).
Proof.
  induction ds as [|d ds IH]; intros H; simpl; [reflexivity|].
  rewrite (H d) by apply list_elem_of_here. simpl.
  rewrite IH by (intros d' Hd'; apply H; now apply list_elem_of_further).
  simpl. reflexivity.
Qed.

Lemma serialize_inj (d d' : Document) :
  _serialize (Some d) = _serialize (Some d') -> d = d'.
Proof. destruct d, d'. simpl. congruence. Qed.

Lemma elem_of_serialized (d : Document) (ds : list Document) :
  _serialize (Some d) ∈ map (fun d => _serialize (Some d)) ds <-> d ∈ ds.
Proof.
  rewrite list_elem_of_In, in_map_iff. split.
  - intros (d' & E & Hd'). apply serialize_inj in E. subst d'.
    now apply list_elem_of_In.
  - intros Hd. exists d. split; [reflexivity | now apply list_elem_of_In].
Qed.

Lemma plain_store_forallb (ds : list Document) :
  forallb (fun d => plain_fields (fields d)) ds = true ->
  forall d, d ∈ ds -> plain_fields (fields d) = true.
Proof.
  intros H d Hd. rewrite forallb_forall in H. apply H.
  now apply list_elem_of_In.
Qed.

(** C4 (as amended): for a non-empty search string of printable ASCII
    characters none of which is a regular-expression metacharacter, over a
    collection whose titles and descriptions are printable ASCII, the handler
    returns, in storage order, the first [limit] of the products in whose
    title or description the string occurs with letter case ignored; so
    when no more than [limit] products qualify, a stored product is returned
    if and only if the string occurs in its title or its description. *)
Theorem literal_search_is_substring_search (st : Mem) (q : string) (limit : Z) :
  1 <= limit ->
  q <> "" ->
  literal q = true ->
  (forall d, d ∈ docs st -> plain_fields (fields d) = true) ->
  let hits := List.filter (fun d => text_matches q (fields d)) (docs st) in
  let returned := map (fun d => _serialize (Some d)) (take (Z.to_nat limit) hits) in
  list_products (Some st) (Some q) None limit
    = (Ok {| items := returned |}, Some st, [GetDocuments (search_filter q) limit]) /\
  (forall d, d ∈ hits <-> d ∈ docs st /\ occurs_in_text q (fields d)) /\
  ((length hits <= Z.to_nat limit)%nat ->
   forall d, d ∈ docs st ->
     (_serialize (Some d) ∈ returned <-> occurs_in_text q (fields d))).
Proof.
  intros Hlim Hne Hq Hplain hits returned.
  assert (Hhits : forall d, d ∈ hits <-> d ∈ docs st /\ occurs_in_text q (fields d)).
  { intros d. unfold hits.
    rewrite !list_elem_of_In, filter_In, text_matches_spec. tauto. }
  split; [|split; [exact Hhits|]].
  - unfold list_products. rewrite (build_filter_search q Hne).
    fold (search_filter q).
    unfold run, mbind, M_bind, bind, read.
    cbn [get_documents mem_store]. unfold mem_get_documents.
    replace (limit <? 1) with false by (symmetry; apply Z.ltb_ge; exact Hlim).
    rewrite (select_pointwise (search_filter q)
               (fun d => text_matches q (fields d))).
    + reflexivity.
    + intros d Hd. apply filter_holds_search; auto.
  - intros Hlen d Hd. unfold returned.
    rewrite (take_ge hits) by exact Hlen.
    rewrite elem_of_serialized, Hhits. tauto.
Qed.

(** The search "IPHONE" over the seeded store. *)
Lemma literal_search_is_substring_search_witness :
  let hits :=
    List.filter (fun d => text_matches "IPHONE" (fields d)) (docs seeded_store) in
  let returned := map (fun d => _serialize (Some d)) (take (Z.to_nat 48) hits) in
  list_products (Some seeded_store) (Some "IPHONE") None 48
    = (Ok {| items := returned |}, Some seeded_store,
       [GetDocuments (search_filter "IPHONE") 48]) /\
  (forall d, d ∈ hits <->
             d ∈ docs seeded_store /\ occurs_in_text "IPHONE" (fields d)) /\
  ((length hits <= Z.to_nat 48)%nat ->
   forall d, d ∈ docs seeded_store ->
     (_serialize (Some d) ∈ returned <-> occurs_in_text "IPHONE" (fields d))).
Proof.
  apply (literal_search_is_substring_search seeded_store "IPHONE" 48).
  - lia.
  - discriminate.
  - reflexivity.
  - apply plain_store_forallb. reflexivity.
Defined.

(** C4 (as stated) fails: the search string is a regular expression for the
    store.  With the search string "." the Sony headphones are returned,
    although no dot occurs in their title or their description. *)
Lemma dot_matches_without_occurring :
  exists returned,
    sony ∈ docs seeded_store /\
    list_products (Some seeded_store) (Some ".") None 48
      = (Ok {| items := returned |}, Some seeded_store,
         [GetDocuments (search_filter ".") 48]) /\
    _serialize (Some sony) ∈ returned /\
    ~ occurs_in_text "." (fields sony).
Proof.
  eexists. split; [|split; [|split]].
  - apply list_elem_of_In. vm_compute. tauto.
  - vm_compute. reflexivity.
  - apply list_elem_of_In. vm_compute. tauto.
  - rewrite <- text_matches_spec. vm_compute. discriminate.
Qed.

Lemma clause_holds_category (c : string) (f : ProductFields) :
  clause_holds (Field "category" (CEq c)) f = Some (String.eqb (category f) c).
Proof.
  cbn [clause_holds].
  change (condition_holds "category" (CEq c) f)
    with (Some (bool_decide (Some (category f) = Some c))).
  f_equal. destruct (String.eqb_spec (category f) c) as [->|Hne].
  - now apply bool_decide_eq_true.
  - apply bool_decide_eq_false. congruence.
Qed.







(** * Further properties of the handlers *)

(** ** The two read handlers, over any store *)

Section ReadHandlers.
Context {S : Type} `{!Store S}.

(** X1: list_products and get_categories never write.  Whatever the store
    answers, the store handle afterwards is the one before, and the calls
    made are none when the store is not configured and otherwise exactly one
    query: the one built from the parameters, or the distinct over
    "category". *)
Theorem read_handlers_never_write
    (db : option S) (search category : option string) (limit : Z) :
  (list_products db search category limit).1.2 = db /\
  (list_products db search category limit).2
    = match db with
      | None => []
      | Some _ => [GetDocuments (build_filter search category) limit]
      end /\
  (get_categories db).1.2 = db /\
  (get_categories db).2
    = match db with None => [] | Some _ => [Distinct "category"] end.
Proof.
  destruct db as [s|]; [|repeat split].
  unfold list_products, get_categories, run, mbind, M_bind, bind, read.
  cbn [app].
  destruct (get_documents (build_filter search category) limit s);
    destruct (distinct "category" s); repeat split.
Qed.

(** X2: list_products relays the store's answer.  An exception of the
    query is not caught; on success the items are the returned documents in
    the same order, one item per document and none of them null, each with
    the document's identifier as [id] and its fields unchanged. *)
Theorem list_products_relays_the_store
    (s : S) (search category : option string) (limit : Z) :
  (forall e,
     get_documents (build_filter search category) limit s = Raise e ->
     (list_products (Some s) search category limit).1.1 = Raise e) /\
  (forall found,
     get_documents (build_filter search category) limit s = Ok found ->
     exists r,
       (list_products (Some s) search category limit).1.1 = Ok r /\
       length (items r) = length found /\
       forall i d, found !! i = Some d ->
         items r !! i = Some (Some {| id := _id d; item_fields := fields d |})).
Proof.
  split.
  - intros e He. unfold list_products, run, mbind, M_bind, bind, read.
    rewrite He. reflexivity.
  - intros found Hf. unfold list_products, run, mbind, M_bind, bind, read.
    rewrite Hf. eexists. split; [reflexivity|]. cbn [items]. split.
    + apply length_map.
    + intros i d Hd.
      change (map (fun d0 => _serialize (Some d0)) found)
        with ((fun d0 => _serialize (Some d0)) <$> found).
      rewrite list_lookup_fmap, Hd. reflexivity.
Qed.

(** X3: get_categories does not remove duplicates itself.  For any list the
    store's distinct returns, the reply is sorted and is a rearrangement of
    the non-empty strings of that list, each kept as often as it occurs. *)
Theorem get_categories_sorts_what_the_store_returns
    (s : S) (cats : list string) :
  distinct "category" s = Ok cats ->
  exists out,
    get_categories (Some s)
      = (Ok {| category_items := out |}, Some s, [Distinct "category"]) /\
    StronglySorted str_le out /\
    out ≡ₚ filter (fun c => c <> "") cats.
Proof.
  intros Hc. exists (sorted (filter (fun c => truthy c) cats)).
  split; [|split].
  - unfold get_categories, run, mbind, M_bind, bind, read. rewrite Hc.
    reflexivity.
  - apply StronglySorted_merge_sort; apply _.
  - unfold sorted. rewrite merge_sort_Permutation.
    erewrite list_filter_iff; [reflexivity|].
    intros c. apply truthy_nonempty.
Qed.

End ReadHandlers.

Lemma get_categories_sorts_what_the_store_returns_witness :
  exists out,
    get_categories (Some seeded_store)
      = (Ok {| category_items := out |}, Some seeded_store, [Distinct "category"]) /\
    StronglySorted str_le out /\
    out ≡ₚ filter (fun c => c <> "") ["Mobiles"; "Audio"; "Laptops"; "Fashion"; "Cameras"].
Proof.
  apply (get_categories_sorts_what_the_store_returns seeded_store
           ["Mobiles"; "Audio"; "Laptops"; "Fashion"; "Cameras"]).
  vm_compute. reflexivity.
Defined.

(** ** seed_products over any store *)

Section SeedAnyStore.
Context {S : Type} `{!Store S}.

(** The loop of seed_products over a list whose creations all succeed. *)
Lemma for_each_created (fs : list ProductFields) (s s1 : S) (t : list call) :
  create_many fs s = Ok s1 ->
  for_each fs
    (fun f => _ ← write (CreateDocument f) (create_document f); mret tt) s t
  = (Ok tt, s1, t ++ map CreateDocument fs).
Proof.
  revert s t. induction fs as [|f fs IH]; intros s t H; simpl in H.
  - injection H as <-. simpl. unfold ret. now rewrite app_nil_r.
  - destruct (create_document f s) as [[oid s']|e] eqn:Hc; [|discriminate].
    cbn [for_each]. unfold mbind at 1, M_bind at 1, bind at 1.
    unfold mbind at 1, M_bind at 1, bind at 1, write at 1. rewrite Hc.
    unfold mret at 1, M_ret at 1, ret at 1.
    rewrite (IH s' _ H). cbn [map]. now rewrite <- app_assoc.
Qed.

(** The loop stops at the first creation that raises. *)
Lemma for_each_interrupted (done rest : list ProductFields) (f : ProductFields)
    (s s1 : S) (t : list call) (e : exn) :
  create_many done s = Ok s1 ->
  create_document f s1 = Raise e ->
  for_each (done ++ f :: rest)
    (fun f => _ ← write (CreateDocument f) (create_document f); mret tt) s t
  = (Raise e, s1, t ++ map CreateDocument (done ++ [f])).
Proof.
  revert s t. induction done as [|g done IH]; intros s t H He; simpl in H.
  - injection H as <-. cbn [app for_each].
    unfold mbind at 1, M_bind at 1, bind at 1.
    unfold mbind at 1, M_bind at 1, bind at 1, write at 1. rewrite He.
    reflexivity.
  - destruct (create_document g s) as [[oid s']|e'] eqn:Hc; [|discriminate].
    cbn [app for_each]. unfold mbind at 1, M_bind at 1, bind at 1.
    unfold mbind at 1, M_bind at 1, bind at 1, write at 1. rewrite Hc.
    unfold mret at 1, M_ret at 1, ret at 1.
    rewrite (IH s' _ H He). cbn [map app]. now rewrite <- app_assoc.
Qed.

(** X4: seeding is not atomic.  When the collection counts 0 and a creation
    raises after some sample records have been created, the exception is the
    reply, the records created before it stay in the store, and nothing is
    called after the failing creation. *)
Theorem seed_products_stops_at_a_failed_write
    (s s1 : S) (done rest : list ProductFields) (f : ProductFields) (e : exn) :
  count_documents s = Ok 0%nat ->
  sample = done ++ f :: rest ->
  create_many done s = Ok s1 ->
  create_document f s1 = Raise e ->
  seed_products (Some s)
    = (Raise e, Some s1, CountDocuments :: map CreateDocument (done ++ [f])).
Proof.
  intros Hc Hs Hd He. unfold seed_products, run.
  unfold mbind at 1, M_bind at 1, bind at 1, read at 1. rewrite Hc.
  cbn [Nat.ltb Nat.leb]. unfold mbind at 1, M_bind at 1, bind at 1.
  rewrite Hs, (for_each_interrupted done rest f s s1 _ e Hd He).
  reflexivity.
Qed.

(** X5: what seed_products reports after inserting.  When the collection
    counts 0 and the six creations succeed, "inserted" is 6, the length of
    the sample, and "count" is whatever the store counts afterwards; the
    handler does not compare the two. *)
Theorem seed_products_reports_the_store_count (s s1 : S) (n : nat) :
  count_documents s = Ok 0%nat ->
  create_many sample s = Ok s1 ->
  count_documents s1 = Ok n ->
  seed_products (Some s)
    = (Ok (Seeded "ok" 6 n), Some s1,
       CountDocuments :: map CreateDocument sample ++ [CountDocuments]).
Proof.
  intros Hc Hm Hn. unfold seed_products, run.
  unfold mbind at 1, M_bind at 1, bind at 1, read at 1. rewrite Hc.
  cbn [Nat.ltb Nat.leb]. unfold mbind at 1, M_bind at 1, bind at 1.
  rewrite (for_each_created sample s s1 _ Hm).
  unfold mbind at 1, M_bind at 1, bind at 1, read at 1. rewrite Hn.
  reflexivity.
Qed.

End SeedAnyStore.

(** A quota of three documents: the fourth creation is refused, three sample
    records stay. *)
Lemma seed_products_stops_at_a_failed_write_witness :
  seed_products (Some {| held := empty_store; capacity := 3 |})
    = (Raise (DriverError "quota exceeded"),
       Some {| held := stored_all (take 3 sample) empty_store; capacity := 3 |},
       CountDocuments :: map CreateDocument (take 4 sample)).
Proof.
  refine (seed_products_stops_at_a_failed_write
            {| held := empty_store; capacity := 3 |}
            {| held := stored_all (take 3 sample) empty_store; capacity := 3 |}
            (take 3 sample) (drop 4 sample)
            (List.nth 3 sample (mkFields "" None 0 "" true None None))
            (DriverError "quota exceeded") _ _ _ _); reflexivity.
Defined.

(** The store that holds nothing: six writes are acknowledged and the count
    reported is still 0. *)
Lemma seed_products_reports_the_store_count_witness :
  seed_products (Some tt)
    = (Ok (Seeded "ok" 6 0), Some tt,
       CountDocuments :: map CreateDocument sample ++ [CountDocuments]).
Proof.
  apply (seed_products_reports_the_store_count tt tt 0%nat); reflexivity.
Defined.

(** ** create_product over any store *)

Section CreateProductAnyStore.
Context {S : Type} `{!Store S} `{!Lookup S}.
Variable ProductSchema :
  string -> option string -> float -> string -> bool -> result ProductSchemaDump.

(** X6: a payload the product schema refuses never reaches the store: the
    schema's exception is the reply, no call is made and the store is the
    one before. *)
Theorem create_product_refused_by_the_schema
    (s : S) (payload : CreateProduct) (e : exn) :
  ProductSchema (cp_title payload) (cp_description payload) (cp_price payload)
      (cp_category payload) (cp_in_stock payload) = Raise e ->
  create_product ProductSchema (Some s) payload = (Raise e, Some s, []).
Proof.
  intros Hp. unfold create_product, run, mbind, M_bind, bind, lift.
  rewrite Hp. reflexivity.
Qed.

(** X7: when the creation itself raises, the exception is the reply, the
    store is the one before and no lookup follows. *)
Theorem create_product_failed_write
    (s : S) (payload : CreateProduct) (p : ProductSchemaDump) (e : exn) :
  ProductSchema (cp_title payload) (cp_description payload) (cp_price payload)
      (cp_category payload) (cp_in_stock payload) = Ok p ->
  create_document (document_of p payload) s = Raise e ->
  create_product ProductSchema (Some s) payload
    = (Raise e, Some s, [CreateDocument (document_of p payload)]).
Proof.
  intros Hp Hw. unfold create_product, run, mbind, M_bind, bind, lift, write.
  rewrite Hp. fold (document_of p payload). rewrite Hw. reflexivity.
Qed.

(** X9: create_product writes at most once and only as its first call.
    Whatever the schema, the store and the lookups answer, the calls made
    are none, or one creation followed by lookups only. *)
Theorem create_product_writes_at_most_once
    (db : option S) (payload : CreateProduct) :
  (create_product ProductSchema db payload).2 = [] \/
  exists document lookups,
    (create_product ProductSchema db payload).2
      = CreateDocument document :: lookups /\
    forallb is_lookup lookups = true.
Proof.
  destruct db as [s|]; [|left; reflexivity].
  unfold create_product, run, mbind, M_bind, bind, lift, write, read,
    try_except, mret, M_ret, ret.
  destruct (ProductSchema _ _ _ _ _) as [p|e]; [|left; reflexivity].
  right. fold (document_of p payload).
  exists (document_of p payload).
  destruct (create_document (document_of p payload) s) as [[new_id s1]|e];
    [|exists []; split; reflexivity].
  destruct (find_one_by_default_database s1);
    [|eexists; split; reflexivity].
  destruct (ObjectId new_id) as [oid|e]; cbn [app].
  - destruct (find_one_by_id oid s1); cbn [app].
    + eexists; split; reflexivity.
    + destruct (find_one_latest s1); eexists; split; reflexivity.
  - destruct (find_one_latest s1); eexists; split; reflexivity.
Qed.

End CreateProductAnyStore.

Lemma create_product_refused_by_the_schema_witness :
  create_product refuse_all (Some tt) iphone = (Raise ValidationError, Some tt, []).
Proof.
  apply (create_product_refused_by_the_schema refuse_all tt iphone ValidationError).
  reflexivity.
Defined.

(** A store whose quota is exhausted. *)
Lemma create_product_failed_write_witness :
  create_product (Lookup0 := capped_lookup (Ok None)) accept_all
      (Some {| held := empty_store; capacity := 0 |}) iphone
    = (Raise (DriverError "quota exceeded"),
       Some {| held := empty_store; capacity := 0 |},
       [CreateDocument (document_of accept_all_dump_iphone iphone)]).
Proof.
  refine (create_product_failed_write (Lookup0 := capped_lookup (Ok None))
            accept_all {| held := empty_store; capacity := 0 |} iphone
            accept_all_dump_iphone (DriverError "quota exceeded") _ _);
    reflexivity.
Defined.

(** X8 on the in-memory store: the lookup by the database handle raises, the
    request fails, and the record is in the store. *)
Lemma create_product_first_lookup_raises_witness :
  create_product (Lookup0 := mem_lookup (Raise (DriverError "cannot encode object")))
      accept_all (Some empty_store) iphone
    = (Raise (DriverError "cannot encode object"),
       Some (stored (document_of accept_all_dump_iphone iphone) empty_store),
       [CreateDocument (document_of accept_all_dump_iphone iphone);
        FindOneByDefaultDatabase]).
Proof.
  refine (create_product_first_lookup_raises
            (Lookup0 := mem_lookup (Raise (DriverError "cannot encode object")))
            accept_all empty_store
            (stored (document_of accept_all_dump_iphone iphone) empty_store)
            iphone accept_all_dump_iphone (fresh_oid 0)
            (DriverError "cannot encode object") _ _ _); reflexivity.
Defined.

(** ** The framework layer *)

Section Precedence.
Context {S : Type} `{!Store S} `{!Lookup S}.
Variable str_validator : json -> option string.
Variable float_validator : json -> option float.
Variable bool_validator : json -> option bool.
Variable ProductSchema :
  string -> option string -> float -> string -> bool -> result ProductSchemaDump.

(** X10: request validation comes before the configuration check.  With
    the store not configured, a request with a limit outside [1,200] or with
    a body that fails validation is answered 422, and a valid one 500. *)
Theorem validation_precedes_configuration
    (search category : option string) (n : Z) (body : gmap string json) :
  (n < 1 \/ 200 < n ->
   status_of (GET_api_products (S := S) None search category (Some n)).1.1 = 422) /\
  (1 <= n <= 200 ->
   status_of (GET_api_products (S := S) None search category (Some n)).1.1 = 500) /\
  (validate_CreateProduct str_validator float_validator bool_validator body
     = Raise RequestValidationError ->
   status_of (POST_api_products (S := S) str_validator float_validator
                bool_validator ProductSchema None body).1.1 = 422) /\
  (forall payload,
     validate_CreateProduct str_validator float_validator bool_validator body
       = Ok payload ->
     status_of (POST_api_products (S := S) str_validator float_validator
                  bool_validator ProductSchema None body).1.1 = 500).
Proof.
  repeat split.
  - intros Hn. unfold GET_api_products.
    now rewrite (validate_limit_out_of_range n Hn).
  - intros Hn. unfold GET_api_products.
    now rewrite (validate_limit_in_range n Hn).
  - intros Hb. unfold POST_api_products. now rewrite Hb.
  - intros payload Hb. unfold POST_api_products. now rewrite Hb.
Qed.

(** X11: a key that is not a field of CreateProduct is ignored: adding it
    to the body, with any value, changes nothing in the outcome of the
    validation. *)
Theorem unknown_keys_are_ignored
    (body : gmap string json) (key : string) (value : json) :
  key ∉ model_fields ->
  validate_CreateProduct str_validator float_validator bool_validator
      (<[key := value]> body)
  = validate_CreateProduct str_validator float_validator bool_validator body.
Proof.
  intros Hk. unfold model_fields in Hk.
  rewrite !not_elem_of_cons in Hk.
  destruct Hk as (H1 & H2 & H3 & H4 & H5 & H6 & H7 & _).
  unfold validate_CreateProduct, required, optional, defaulted.
  rewrite !lookup_insert_ne by congruence. reflexivity.
Qed.

(** X12: for the three optional fields, an explicit JSON null is the same
    as leaving the key out. *)
Theorem null_is_absent_for_optional_fields
    (body : gmap string json) (key : string) :
  key ∈ ["description"; "image"; "rating"] ->
  validate_CreateProduct str_validator float_validator bool_validator
      (<[key := JNull]> body)
  = validate_CreateProduct str_validator float_validator bool_validator
      (delete key body).
Proof.
  intros Hk. rewrite !elem_of_cons in Hk.
  unfold validate_CreateProduct, required, optional, defaulted.
  destruct Hk as [-> | [-> | [-> | Hk]]]; [| | |now apply elem_of_nil in Hk];
    rewrite ?lookup_insert_eq, ?lookup_delete_eq;
    rewrite !lookup_insert_ne, !lookup_delete_ne by discriminate;
    reflexivity.
Qed.

End Precedence.

Lemma validation_precedes_configuration_witness :
  status_of (GET_api_products (S := unit) None None None (Some 0)).1.1 = 422 /\
  status_of (GET_api_products (S := unit) None None None (Some 48)).1.1 = 500 /\
  status_of (POST_api_products (S := unit) only_str only_float only_bool
               accept_all None body_without_title).1.1 = 422 /\
  status_of (POST_api_products (S := unit) only_str only_float only_bool
               accept_all None body_iphone).1.1 = 500.
Proof.
  pose proof (validation_precedes_configuration (S := unit)
                only_str only_float only_bool accept_all None None 0
                body_without_title) as (H0 & _ & Hb & _).
  pose proof (validation_precedes_configuration (S := unit)
                only_str only_float only_bool accept_all None None 48
                body_iphone) as (_ & H48 & _ & Hi).
  split; [apply H0; left; lia|].
  split; [apply H48; lia|].
  split; [apply Hb; reflexivity|].
  apply (Hi iphone). reflexivity.
Defined.

Lemma unknown_keys_are_ignored_witness :
  validate_CreateProduct only_str only_float only_bool
      (<["colour" := JString "black"]> body_iphone)
  = validate_CreateProduct only_str only_float only_bool body_iphone.
Proof.
  apply (unknown_keys_are_ignored only_str only_float only_bool
           body_iphone "colour" (JString "black")).
  unfold model_fields. rewrite !not_elem_of_cons.
  repeat split; try discriminate. apply not_elem_of_nil.
Defined.

Lemma null_is_absent_for_optional_fields_witness :
  validate_CreateProduct only_str only_float only_bool
      (<["image" := JNull]> body_iphone)
  = validate_CreateProduct only_str only_float only_bool
      (delete "image" body_iphone).
Proof.
  apply (null_is_absent_for_optional_fields only_str only_float only_bool
           body_iphone "image").
  rewrite !elem_of_cons. right; left. reflexivity.
Defined.

(** ** list_products on the in-memory store *)

Lemma clause_holds_search (q : string) (f : ProductFields) :
  literal q = true -> plain_fields f = true ->
  clause_holds (Or [("title", CRegex q "i"); ("description", CRegex q "i")]) f
  = Some (text_matches q f).
Proof.
  intros Hq Hf. pose proof (filter_holds_search q f Hq Hf) as H.
  cbn [filter_holds] in H.
  destruct (clause_holds _ f) as [b|]; [|discriminate].
  simpl in H. rewrite andb_true_r in H. exact H.
Qed.

Lemma filter_holds_wanted (st : Mem) (search cat : option string) (d : Document) :
  searchable st search -> d ∈ docs st ->
  filter_holds (build_filter search cat) (fields d) = Some (wanted search cat d).
Proof.
  intros Hs Hd. unfold build_filter, wanted.
  assert (Hcat : forall c (b : bool),
             filter_holds [Field "category" (CEq c)] (fields d)
             = Some (String.eqb (category (fields d)) c)).
  { intros c _. cbn [filter_holds]. rewrite clause_holds_category. simpl.
    now rewrite andb_true_r. }
  destruct search as [q|]; [destruct (truthy q) eqn:Hq|].
  - destruct (Hs (proj1 (truthy_nonempty q) (Is_true_true_2 _ Hq))) as [Hl Hp].
    destruct cat as [c|]; [destruct (truthy c)|]; cbn [app filter_holds];
      rewrite (clause_holds_search q (fields d) Hl (Hp d Hd));
      rewrite ?clause_holds_category; simpl;
      now rewrite ?andb_true_r.
  - destruct cat as [c|]; [destruct (truthy c)|]; cbn [app];
      rewrite ?(Hcat c true); reflexivity.
  - destruct cat as [c|]; [destruct (truthy c)|]; cbn [app];
      rewrite ?(Hcat c true); reflexivity.
Qed.

(** The reply of list_products on the in-memory store, for a limit of at
    least 1 and a search string inside the interpreted fragment. *)
Lemma list_products_plain (st : Mem) (search cat : option string) (limit : Z) :
  1 <= limit -> searchable st search ->
  list_products (Some st) search cat limit
  = (Ok {| items := map (fun d => _serialize (Some d))
                      (take (Z.to_nat limit)
                         (List.filter (wanted search cat) (docs st))) |},
     Some st, [GetDocuments (build_filter search cat) limit]).
Proof.
  intros Hlim Hs. unfold list_products, run, mbind, M_bind, bind, read.
  cbn [get_documents mem_store]. unfold mem_get_documents.
  replace (limit <? 1) with false by (symmetry; apply Z.ltb_ge; exact Hlim).
  rewrite (select_pointwise _ (wanted search cat)); [reflexivity|].
  intros d Hd. now apply filter_holds_wanted with st.
Qed.

Lemma wanted_spec (search cat : option string) (d : Document) :
  wanted search cat d = true <->
  (forall q, search = Some q -> q <> "" -> occurs_in_text q (fields d)) /\
  (forall c, cat = Some c -> c <> "" -> category (fields d) = c).
Proof.
  unfold wanted. rewrite andb_true_iff.
  match goal with |- (?A /\ ?B) <-> (?C /\ ?D) =>
    cut ((A <-> C) /\ (B <-> D)); [tauto | split] end.
  - destruct search as [q|]; [|split; [intros _ q [=] | reflexivity]].
    destruct (truthy q) eqn:Hq.
    + rewrite text_matches_spec. split.
      * intros H q' [= <-] _. exact H.
      * intros H. apply (H q eq_refl).
        apply truthy_nonempty. now rewrite Hq.
    + split; [|reflexivity]. intros _ q' [= <-] Hne.
      apply truthy_nonempty in Hne. rewrite Hq in Hne. contradiction.
  - destruct cat as [c|]; [|split; [intros _ c [=] | reflexivity]].
    destruct (truthy c) eqn:Hc.
    + rewrite String.eqb_eq. split.
      * intros H c' [= <-] _. exact H.
      * intros H. apply (H c eq_refl).
        apply truthy_nonempty. now rewrite Hc.
    + split; [|reflexivity]. intros _ c' [= <-] Hne.
      apply truthy_nonempty in Hne. rewrite Hc in Hne. contradiction.
Qed.

(** X13: what list_products returns, in full.  For a limit of at least 1
    and, when a search string is given, a literal one over printable ASCII
    text: the reply lists, in storage order, the first [limit] of the
    documents that contain the search string in title or description with
    letter case ignored (when it is non-empty) and whose category is exactly
    the given one (when it is non-empty). *)
Theorem list_products_returns_the_wanted
    (st : Mem) (search cat : option string) (limit : Z) :
  1 <= limit ->
  searchable st search ->
  exists hits,
    list_products (Some st) search cat limit
    = (Ok {| items := map (fun d => _serialize (Some d))
                        (take (Z.to_nat limit) hits) |},
       Some st, [GetDocuments (build_filter search cat) limit]) /\
    hits `sublist_of` docs st /\
    forall d, d ∈ hits <->
      d ∈ docs st /\
      (forall q, search = Some q -> q <> "" -> occurs_in_text q (fields d)) /\
      (forall c, cat = Some c -> c <> "" -> category (fields d) = c).
Proof.
  intros Hlim Hs. exists (List.filter (wanted search cat) (docs st)).
  split; [now apply list_products_plain|]. split.
  - induction (docs st) as [|d ds IH]; simpl; [constructor|].
    destruct (wanted search cat d); now constructor.
  - intros d. rewrite !list_elem_of_In, filter_In, wanted_spec. reflexivity.
Qed.

Lemma seeded_store_searchable (q : string) :
  literal q = true -> searchable seeded_store (Some q).
Proof.
  intros Hq _. split; [exact Hq|].
  apply plain_store_forallb. reflexivity.
Qed.

(** The search "PRO" in the category "Mobiles" over the seeded store. *)
Lemma list_products_returns_the_wanted_witness :
  exists hits,
    list_products (Some seeded_store) (Some "PRO") (Some "Mobiles") 48
    = (Ok {| items := map (fun d => _serialize (Some d))
                        (take (Z.to_nat 48) hits) |},
       Some seeded_store,
       [GetDocuments (build_filter (Some "PRO") (Some "Mobiles")) 48]) /\
    hits `sublist_of` docs seeded_store /\
    forall d, d ∈ hits <->
      d ∈ docs seeded_store /\
      (forall q, Some "PRO" = Some q -> q <> "" -> occurs_in_text q (fields d)) /\
      (forall c, Some "Mobiles" = Some c -> c <> "" -> category (fields d) = c).
Proof.
  apply (list_products_returns_the_wanted seeded_store (Some "PRO")
           (Some "Mobiles") 48).
  - lia.
  - apply seeded_store_searchable. reflexivity.
Defined.

Lemma text_matches_lower (q q' : string) (f : ProductFields) :
  lower_string q = lower_string q' -> text_matches q f = text_matches q' f.
Proof. intros H. unfold text_matches, icontains. now rewrite H. Qed.

Lemma lower_string_nonempty (q q' : string) :
  lower_string q = lower_string q' -> q <> "" -> q' <> "".
Proof. intros H Hq ->. destruct q; [congruence | discriminate]. Qed.

(** X14: the letter case of the search string does not matter.  On the
    in-memory store, over a collection whose titles and descriptions are
    printable ASCII, two literal search strings that differ in letter case
    only give the same listing, for any category and any limit of at
    least 1. *)
Theorem search_ignores_the_case_of_the_query
    (st : Mem) (q q' : string) (cat : option string) (limit : Z) :
  1 <= limit ->
  lower_string q = lower_string q' ->
  literal q = true ->
  literal q' = true ->
  (forall d, d ∈ docs st -> plain_fields (fields d) = true) ->
  (list_products (Some st) (Some q) cat limit).1.1
  = (list_products (Some st) (Some q') cat limit).1.1.
Proof.
  intros Hlim Hl Hq Hq' Hp.
  rewrite !list_products_plain; try exact Hlim; try (intros _; now split).
  cbn [fst]. do 4 f_equal.
  apply filter_ext. intros d. unfold wanted.
  rewrite (text_matches_lower q q' (fields d) Hl).
  assert (Ht : truthy q = truthy q').
  { unfold truthy. destruct q, q'; try reflexivity; discriminate. }
  now rewrite Ht.
Qed.

Lemma search_ignores_the_case_of_the_query_witness :
  (list_products (Some seeded_store) (Some "iPhone") None 48).1.1
  = (list_products (Some seeded_store) (Some "IPHONE") None 48).1.1.
Proof.
  apply (search_ignores_the_case_of_the_query seeded_store "iPhone" "IPHONE"
           None 48); try reflexivity.
  - lia.
  - apply plain_store_forallb. reflexivity.
Defined.

(** ** get_categories and list_products together *)

Lemma get_categories_mem (st : Mem) :
  get_categories (Some st)
  = (Ok {| category_items := mem_categories st |}, Some st, [Distinct "category"]).
Proof. reflexivity. Qed.

Lemma elem_of_mem_categories (st : Mem) (c : string) :
  c ∈ mem_categories st <->
  c <> "" /\ exists d, d ∈ docs st /\ category (fields d) = c.
Proof.
  unfold mem_categories.
  destruct (sorted_truthy_spec _ (NoDup_remove_dups
              (omap (fun d => mjoin (text_field "category" (fields d)))
                    (docs st)))) as (_ & _ & _ & Hin).
  rewrite Hin, elem_of_remove_dups, list_elem_of_omap.
  split; intros (Hc & d & Hd & Hcat); (split; [exact Hc|]); exists d;
    (split; [exact Hd|]); simpl in *; congruence.
Qed.

Lemma take_nonempty {A} (n : nat) (l : list A) :
  (1 <= n)%nat -> take n l = [] -> l = [].
Proof. destruct n; [lia|]. destruct l; [reflexivity | discriminate]. Qed.

(** X16: the categories that get_categories reports are exactly the
    non-empty categories whose listing is not empty.  For a non-empty
    category [c] and a limit of at least 1, list_products with that category
    alone returns at least one product if and only if [c] is among the
    categories reported, and every product it returns has category [c]. *)
Theorem reported_categories_have_products
    (st : Mem) (c : string) (limit : Z) :
  1 <= limit ->
  c <> "" ->
  exists cats listed,
    get_categories (Some st)
      = (Ok {| category_items := cats |}, Some st, [Distinct "category"]) /\
    list_products (Some st) None (Some c) limit
      = (Ok {| items := listed |}, Some st,
         [GetDocuments [Field "category" (CEq c)] limit]) /\
    (c ∈ cats <-> listed <> []) /\
    (forall it, it ∈ listed ->
       exists i, it = Some i /\ category (item_fields i) = c).
Proof.
  intros Hlim Hc.
  assert (Hb : build_filter None (Some c) = [Field "category" (CEq c)]).
  { unfold build_filter. apply truthy_nonempty in Hc.
    destruct (truthy c); [reflexivity | contradiction]. }
  assert (Hw : forall d, wanted None (Some c) d = true <-> category (fields d) = c).
  { intros d. rewrite wanted_spec. split.
    - intros [_ H]. now apply (H c).
    - intros H. split; [intros q [=] | intros c' [= <-] _; exact H]. }
  exists (mem_categories st). eexists.
  split; [apply get_categories_mem|].
  split; [rewrite <- Hb; apply list_products_plain; [exact Hlim | exact I]|].
  split.
  - rewrite elem_of_mem_categories. split.
    + intros (_ & d & Hd & Hcat) Hnil.
      apply map_eq_nil, take_nonempty in Hnil; [|lia].
      assert (Hin : In d (List.filter (wanted None (Some c)) (docs st))).
      { apply filter_In. split; [now apply list_elem_of_In | now apply Hw]. }
      rewrite Hnil in Hin. exact Hin.
    + intros Hne. split; [exact Hc|].
      destruct (List.filter (wanted None (Some c)) (docs st)) as [|d ds] eqn:Hf.
      * exfalso. apply Hne. now rewrite take_nil.
      * assert (Hin : In d (List.filter (wanted None (Some c)) (docs st)))
          by (rewrite Hf; now left).
        apply filter_In in Hin. destruct Hin as [Hd Hwd].
        exists d. split; [now apply list_elem_of_In | now apply Hw].
  - intros it Hit. apply list_elem_of_In, in_map_iff in Hit.
    destruct Hit as (d & <- & Hd). apply list_elem_of_In in Hd.
    apply (subseteq_take (Z.to_nat limit)) in Hd.
    apply list_elem_of_In, filter_In in Hd. destruct Hd as [_ Hwd].
    eexists. split; [reflexivity|]. simpl. now apply Hw.
Qed.

Lemma reported_categories_have_products_witness :
  exists cats listed,
    get_categories (Some seeded_store)
      = (Ok {| category_items := cats |}, Some seeded_store, [Distinct "category"]) /\
    list_products (Some seeded_store) None (Some "Audio") 48
      = (Ok {| items := listed |}, Some seeded_store,
         [GetDocuments [Field "category" (CEq "Audio")] 48]) /\
    ("Audio" ∈ cats <-> listed <> []) /\
    (forall it, it ∈ listed ->
       exists i, it = Some i /\ category (item_fields i) = "Audio").
Proof.
  apply (reported_categories_have_products seeded_store "Audio" 48).
  - lia.
  - discriminate.
Defined.

(** ** create_product on the in-memory store *)

Lemma sixteen_cases (k : N) :
  (k < 16)%N ->
  k = 0%N \/ k = 1%N \/ k = 2%N \/ k = 3%N \/ k = 4%N \/ k = 5%N \/ k = 6%N \/
  k = 7%N \/ k = 8%N \/ k = 9%N \/ k = 10%N \/ k = 11%N \/ k = 12%N \/
  k = 13%N \/ k = 14%N \/ k = 15%N.
Proof. lia. Qed.

Lemma hex_digit_spec (k : N) :
  (k < 16)%N ->
  is_hex (hex_digit k) = true /\
  lower (hex_digit k) = hex_digit k /\
  hex_value (hex_digit k) = k.
Proof.
  intros Hk. apply sixteen_cases in Hk.
  repeat (destruct Hk as [-> | Hk]; [repeat split|]).
  subst k. repeat split.
Qed.

Lemma length_append (s1 s2 : string) :
  String.length (String.append s1 s2)
  = (String.length s1 + String.length s2)%nat.
Proof.
  induction s1 as [|c s1 IH]; [reflexivity|].
  rewrite append_cons. simpl. now rewrite IH.
Qed.

Lemma all_chars_append (p : ascii -> bool) (s1 s2 : string) :
  all_chars p (String.append s1 s2) = all_chars p s1 && all_chars p s2.
Proof.
  induction s1 as [|c s1 IH]; [reflexivity|].
  rewrite append_cons. simpl. now rewrite IH, andb_assoc.
Qed.

Lemma lower_string_append (s1 s2 : string) :
  lower_string (String.append s1 s2)
  = String.append (lower_string s1) (lower_string s2).
Proof.
  induction s1 as [|c s1 IH]; [reflexivity|].
  rewrite append_cons. simpl. rewrite append_cons. now rewrite IH.
Qed.

Lemma append_last_inj (s1 s2 : string) (c1 c2 : ascii) :
  String.append s1 (String c1 EmptyString)
  = String.append s2 (String c2 EmptyString) ->
  s1 = s2 /\ c1 = c2.
Proof.
  revert s2. induction s1 as [|a s1 IH]; intros [|b s2] H;
    rewrite ?append_nil, ?append_cons in H.
  - injection H as ->. auto.
  - injection H as _ H. destruct s2; discriminate.
  - injection H as _ H. destruct s1; discriminate.
  - injection H as -> H. destruct (IH s2 H) as [-> ->]. auto.
Qed.

Lemma hex_of_step (w : nat) (n : N) :
  hex_of (S w) n
  = String.append (hex_of w (n / 16)) (String (hex_digit (n mod 16)) EmptyString).
Proof. reflexivity. Qed.

Lemma hex_of_well_formed (w : nat) (n : N) :
  String.length (hex_of w n) = w /\
  all_chars is_hex (hex_of w n) = true /\
  lower_string (hex_of w n) = hex_of w n.
Proof.
  revert n. induction w as [|w IH]; intros n; [repeat split|].
  rewrite hex_of_step.
  destruct (IH (n / 16)%N) as (Hl & Hh & Hlow).
  destruct (hex_digit_spec (n mod 16)) as (Hd1 & Hd2 & _);
    [apply N.mod_lt; discriminate|].
  rewrite length_append, all_chars_append, lower_string_append, Hl, Hh, Hlow.
  cbn [String.length all_chars lower_string]. rewrite Hd1, Hd2.
  repeat split. lia.
Qed.

(** Identifiers are told apart by the counter they come from. *)
Lemma hex_of_inj (w : nat) (a b : N) :
  hex_of w a = hex_of w b -> (a mod 16 ^ N.of_nat w = b mod 16 ^ N.of_nat w)%N.
Proof.
  revert a b. induction w as [|w IH]; intros a b H.
  - simpl. now rewrite !N.mod_1_r.
  - rewrite !hex_of_step in H. apply append_last_inj in H.
    destruct H as [Hw Hd]. apply IH in Hw.
    assert (Hm : (a mod 16 = b mod 16)%N).
    { destruct (hex_digit_spec (a mod 16)) as (_ & _ & <-);
        [apply N.mod_lt; discriminate|].
      destruct (hex_digit_spec (b mod 16)) as (_ & _ & <-);
        [apply N.mod_lt; discriminate|].
      now rewrite Hd. }
    rewrite Nat2N.inj_succ, N.pow_succ_r', !N.Div0.mod_mul_r.
    now rewrite Hw, Hm.
Qed.

Lemma fresh_oid_inj (a b : N) :
  (a < 16 ^ 24)%N -> (b < 16 ^ 24)%N -> fresh_oid a = fresh_oid b -> a = b.
Proof.
  intros Ha Hb H. apply hex_of_inj in H.
  change (N.of_nat 24) with 24%N in H.
  now rewrite !N.mod_small in H.
Qed.

Lemma ObjectId_fresh_oid (n : N) : mem_ObjectId (fresh_oid n) = Ok (fresh_oid n).
Proof.
  unfold mem_ObjectId, fresh_oid.
  destruct (hex_of_well_formed 24 n) as (Hl & Hh & Hlow).
  now rewrite Hl, Hh, Hlow.
Qed.

Lemma well_formed_fresh (st : Mem) (d : Document) :
  well_formed st -> d ∈ docs st -> _id d <> fresh_oid (next_oid st).
Proof.
  intros [Hn Hids] Hd E. destruct (Hids d Hd) as (k & Hk & Hid).
  rewrite Hid in E. apply fresh_oid_inj in E; lia.
Qed.

Lemma find_appended (ds : list Document) (oid : string) (f : ProductFields) :
  (forall d, d ∈ ds -> _id d <> oid) ->
  List.find (fun d => String.eqb (_id d) oid) (ds ++ [mkDoc oid f])
  = Some (mkDoc oid f).
Proof.
  induction ds as [|d ds IH]; intros H; simpl.
  - now rewrite String.eqb_refl.
  - destruct (String.eqb_spec (_id d) oid) as [E|_].
    + exfalso. apply (H d); [apply list_elem_of_here | exact E].
    + apply IH. intros d' Hd'. apply H. now apply list_elem_of_further.
Qed.

Section CreateProductInMemory.
Variable ProductSchema :
  string -> option string -> float -> string -> bool -> result ProductSchemaDump.

Lemma create_product_in_memory
    (st : Mem) (payload : CreateProduct) (p : ProductSchemaDump)
    (first : option Document) :
  well_formed st ->
  ProductSchema (cp_title payload) (cp_description payload) (cp_price payload)
      (cp_category payload) (cp_in_stock payload) = Ok p ->
  create_product (Lookup0 := mem_lookup (Ok first)) ProductSchema (Some st) payload
    = (Ok {| item := Some {| id := fresh_oid (next_oid st);
                             item_fields := document_of p payload |} |},
       Some (stored (document_of p payload) st),
       [CreateDocument (document_of p payload); FindOneByDefaultDatabase;
        FindOneById (fresh_oid (next_oid st))]).
Proof.
  intros Hwf Hp.
  unfold create_product, run, mbind, M_bind, bind, lift, write, read,
    try_except, mret, M_ret, ret.
  rewrite Hp. fold (document_of p payload).
  cbn [create_document mem_store mem_create_document
       find_one_by_default_database ObjectId find_one_by_id mem_lookup].
  fold (stored (document_of p payload) st).
  rewrite ObjectId_fresh_oid. unfold mem_find_one_by_id.
  cbn [docs stored].
  rewrite (find_appended (docs st) (fresh_oid (next_oid st))
             (document_of p payload)).
  - reflexivity.
  - intros d Hd. now apply well_formed_fresh.
Qed.

(** X17: creating and reading back.  On an in-memory store whose
    identifiers are the ones it handed out, when the schema accepts the
    payload and the lookup by the database handle returns, the reply is the
    record just written: its id is the new identifier, which no stored
    record had, and its fields are the written ones; the store holds one
    record more and the fallback lookup is not made. *)
Theorem create_product_returns_the_new_record
    (st : Mem) (payload : CreateProduct) (p : ProductSchemaDump)
    (first : option Document) :
  well_formed st ->
  ProductSchema (cp_title payload) (cp_description payload) (cp_price payload)
      (cp_category payload) (cp_in_stock payload) = Ok p ->
  create_product (Lookup0 := mem_lookup (Ok first)) ProductSchema (Some st) payload
    = (Ok {| item := Some {| id := fresh_oid (next_oid st);
                             item_fields := document_of p payload |} |},
       Some (stored (document_of p payload) st),
       [CreateDocument (document_of p payload); FindOneByDefaultDatabase;
        FindOneById (fresh_oid (next_oid st))]) /\
  (forall d, d ∈ docs st -> _id d <> fresh_oid (next_oid st)) /\
  length (docs (stored (document_of p payload) st)) = S (length (docs st)).
Proof.
  intros Hwf Hp. split; [|split].
  - now apply create_product_in_memory.
  - intros d Hd. now apply well_formed_fresh.
  - cbn [docs stored]. rewrite length_app. simpl. lia.
Qed.

(** X18: a created product is found again.  After a successful
    create_product on such a store, for a product whose category is not
    empty: get_categories reports that category, and list_products with that
    category alone lists the created item, provided fewer than [limit]
    products of the category were stored before. *)
Theorem created_product_is_listed
    (st : Mem) (payload : CreateProduct) (p : ProductSchemaDump)
    (first : option Document) (limit : Z) :
  well_formed st ->
  ProductSchema (cp_title payload) (cp_description payload) (cp_price payload)
      (cp_category payload) (cp_in_stock payload) = Ok p ->
  ps_category p <> "" ->
  (length (List.filter
             (fun d => String.eqb (category (fields d)) (ps_category p))
             (docs st)) < Z.to_nat limit)%nat ->
  exists created st' listed cats,
    (create_product (Lookup0 := mem_lookup (Ok first)) ProductSchema
       (Some st) payload).1
      = (Ok {| item := Some created |}, Some st') /\
    list_products (Some st') None (Some (ps_category p)) limit
      = (Ok {| items := listed |}, Some st',
         [GetDocuments [Field "category" (CEq (ps_category p))] limit]) /\
    Some created ∈ listed /\
    get_categories (Some st')
      = (Ok {| category_items := cats |}, Some st', [Distinct "category"]) /\
    ps_category p ∈ cats.
Proof.
  intros Hwf Hp Hc Hlen.
  set (c := ps_category p) in *.
  set (new := mkDoc (fresh_oid (next_oid st)) (document_of p payload)).
  assert (Hb : build_filter None (Some c) = [Field "category" (CEq c)]).
  { unfold build_filter. apply truthy_nonempty in Hc.
    destruct (truthy c); [reflexivity | contradiction]. }
  assert (Hw : forall d, wanted None (Some c) d
                         = String.eqb (category (fields d)) c).
  { intros d. unfold wanted. apply truthy_nonempty in Hc.
    destruct (truthy c); [reflexivity | contradiction]. }
  eexists _, (stored (document_of p payload) st), _, _.
  split; [rewrite (create_product_in_memory st payload p first Hwf Hp);
          reflexivity|].
  split; [rewrite <- Hb; apply list_products_plain; [lia | exact I]|].
  split; [|split; [apply get_categories_mem|]].
  - change (Some {| id := fresh_oid (next_oid st);
                    item_fields := document_of p payload |})
      with (_serialize (Some new)).
    apply elem_of_serialized. cbn [docs stored]. fold new.
    rewrite List.filter_app, (filter_ext _ _ Hw).
    cbn [List.filter]. rewrite (Hw new). cbn [fields new category document_of].
    fold c. rewrite String.eqb_refl.
    rewrite take_ge by (rewrite length_app; simpl; lia).
    apply elem_of_app. right. apply list_elem_of_here.
  - apply elem_of_mem_categories. split; [exact Hc|].
    exists new. split; [|reflexivity].
    cbn [docs stored]. apply elem_of_app. right. apply list_elem_of_here.
Qed.

End CreateProductInMemory.

Lemma well_formed_empty : well_formed empty_store.
Proof.
  split; [reflexivity|]. intros d Hd. now apply elem_of_nil in Hd.
Qed.

Lemma create_product_returns_the_new_record_witness :
  create_product (Lookup0 := mem_lookup (Ok None)) accept_all (Some empty_store) iphone
    = (Ok {| item := Some {| id := fresh_oid (next_oid empty_store);
                             item_fields := document_of accept_all_dump_iphone iphone |} |},
       Some (stored (document_of accept_all_dump_iphone iphone) empty_store),
       [CreateDocument (document_of accept_all_dump_iphone iphone);
        FindOneByDefaultDatabase;
        FindOneById (fresh_oid (next_oid empty_store))]) /\
  (forall d, d ∈ docs empty_store -> _id d <> fresh_oid (next_oid empty_store)) /\
  length (docs (stored (document_of accept_all_dump_iphone iphone) empty_store))
  = S (length (docs empty_store)).
Proof.
  apply (create_product_returns_the_new_record accept_all empty_store iphone
           accept_all_dump_iphone None well_formed_empty).
  reflexivity.
Defined.

Lemma created_product_is_listed_witness :
  exists created st' listed cats,
    (create_product (Lookup0 := mem_lookup (Ok None)) accept_all
       (Some empty_store) iphone).1
      = (Ok {| item := Some created |}, Some st') /\
    list_products (Some st') None (Some "Mobiles") 48
      = (Ok {| items := listed |}, Some st',
         [GetDocuments [Field "category" (CEq "Mobiles")] 48]) /\
    Some created ∈ listed /\
    get_categories (Some st')
      = (Ok {| category_items := cats |}, Some st', [Distinct "category"]) /\
    "Mobiles" ∈ cats.
Proof.
  apply (created_product_is_listed accept_all empty_store iphone
           accept_all_dump_iphone None 48 well_formed_empty).
  - reflexivity.
  - discriminate.
  - vm_compute. lia.
Defined.

(** ** test_database *)

Section TestDatabase.
Context {S : Type} `{!Inspect S}.

(** X19: the report says of the connection settings only whether the two
    environment variables are set.  Whatever the handle is and does, the
    fields database_url and database_name are "✅ Set" when the variable is
    set and not empty and "❌ Not Set" otherwise; the name of the database,
    which the handler reads from the handle, is never in the report. *)
Theorem test_database_reports_the_environment_only
    (db : option S) (getenv : string -> option string) :
  backend (test_database db getenv) = "✅ Running" /\
  database_url (test_database db getenv)
    = Some (if env_set getenv "DATABASE_URL" then "✅ Set" else "❌ Not Set") /\
  database_name (test_database db getenv)
    = Some (if env_set getenv "DATABASE_NAME" then "✅ Set" else "❌ Not Set") /\
  (database_url (test_database db getenv) = Some "✅ Set" <->
   exists v, getenv "DATABASE_URL" = Some v /\ v <> "") /\
  (database_name (test_database db getenv) = Some "✅ Set" <->
   exists v, getenv "DATABASE_NAME" = Some v /\ v <> "").
Proof.
  assert (Hset : forall key,
             (Some (if env_set getenv key then "✅ Set" else "❌ Not Set")
              = Some "✅ Set") <->
             exists v, getenv key = Some v /\ v <> "").
  { intros key. unfold env_set. destruct (getenv key) as [v|].
    - destruct (truthy v) eqn:Hv.
      + split; [|reflexivity]. intros _. exists v. split; [reflexivity|].
        apply truthy_nonempty. now rewrite Hv.
      + split; [discriminate|]. intros (v' & [= <-] & Hne).
        apply truthy_nonempty in Hne. rewrite Hv in Hne. contradiction.
    - split; [discriminate|]. intros (v & Hv & _). discriminate. }
  assert (Hu : database_url (test_database db getenv)
               = Some (if env_set getenv "DATABASE_URL" then "✅ Set" else "❌ Not Set")).
  { unfold test_database. destruct db as [h|]; [|reflexivity].
    destruct (name h); [|reflexivity].
    destruct (list_collection_names h); reflexivity. }
  assert (Hn : database_name (test_database db getenv)
               = Some (if env_set getenv "DATABASE_NAME" then "✅ Set" else "❌ Not Set")).
  { unfold test_database. destruct db as [h|]; [|reflexivity].
    destruct (name h); [|reflexivity].
    destruct (list_collection_names h); reflexivity. }
  split; [|split; [exact Hu|split; [exact Hn|]]].
  - unfold test_database. destruct db as [h|]; [|reflexivity].
    destruct (name h); [|reflexivity].
    destruct (list_collection_names h); reflexivity.
  - rewrite Hu, Hn. split; apply Hset.
Qed.

(** X20: what the report says of the connection.  connection_status is
    "Connected" exactly when a handle is configured and reading its name did
    not raise; database is "✅ Connected & Working" exactly when, moreover,
    listing the collections did not raise, and then collections holds the
    first ten names of the listing; in every other case collections is
    empty.  collections never holds more than ten names. *)
Theorem test_database_reports_the_connection
    (db : option S) (getenv : string -> option string) :
  (connection_status (test_database db getenv) = "Connected" <->
   exists h n, db = Some h /\ name h = Returns n) /\
  (database (test_database db getenv) = "✅ Connected & Working" <->
   exists h n names,
     db = Some h /\ name h = Returns n /\
     list_collection_names h = Returns names /\
     collections (test_database db getenv) = take 10 names) /\
  (database (test_database db getenv) <> "✅ Connected & Working" ->
   collections (test_database db getenv) = []) /\
  (length (collections (test_database db getenv)) <= 10)%nat.
Proof.
  unfold test_database.
  destruct db as [h|];
    [destruct (name h) as [n|msg] eqn:Hn;
       [destruct (list_collection_names h) as [names|msg] eqn:Hl|]|];
    cbn [connection_status database collections set_database
         set_database_url set_database_name set_connection_status
         set_collections];
    repeat match goal with
           | |- _ /\ _ => split
           | |- _ <-> _ => split
           | |- _ -> _ => intro
           | H : exists _, _ |- _ => destruct H
           | H : _ /\ _ |- _ => destruct H
           | H : Some _ = Some _ |- _ => injection H as H; subst
           | H : None = Some _ |- _ => discriminate H
           end;
    try congruence;
    try (cbv beta iota delta [String.append] in *; congruence);
    try (rewrite length_take; lia);
    try (simpl; lia);
    eauto 10.
Qed.

End TestDatabase.

(** The listing of the category "Audio" over the seeded store. *)
Lemma list_products_relays_the_store_witness :
  exists r,
    (list_products (Some seeded_store) None (Some "Audio") 48).1.1 = Ok r /\
    length (items r) = length [sony] /\
    forall i d, [sony] !! i = Some d ->
      items r !! i = Some (Some {| id := _id d; item_fields := fields d |}).
Proof.
  apply (proj2 (list_products_relays_the_store seeded_store None
                  (Some "Audio") 48) [sony]).
  vm_compute. reflexivity.
Defined.
